(** * A/B testing dashboard (app.py): reshape, aggregate, filter, highlight

    A shallow embedding of the computing part of [app.py]: the two column
    selections and their concatenation into [df_long] (step 2), the summary
    table (step 3), the date and platform filter (step 5), the per-platform
    totals and means (step 6), and the formatted, highlighted text with the
    overall best platform (step 7).  The page, the charts and the widgets are
    left out; the values a widget returns are arguments.

    Python and pandas values are modelled as follows.
    - An [int64] is a [Z]; a sum of int64 cells wraps around at 2^63.
    - A [float64] is a [spec_float] of precision 53: comparison, division and
      the conversion from integers are the IEEE-754 ones of the Standard
      Library, so [f"{n/1_000:.1f}"] is computed digit for digit.
    - A column is a list of cells tagged with its dtype.
    - The result of a [groupby] on the platform is a finite map from the group
      key to the aggregate; [.get(key, 0)] is a lookup with a default.
    - An exception is a value of [exn] in the [result] monad.
    - What pandas and numpy compute inside their own kernels (the rounding of
      a floating-point sum or mean, the shortest decimal form of a float, the
      date parser) is an instance of the class [Kernels]: every theorem holds
      for every instance. *)

From Stdlib Require Import ZArith String Ascii List DecimalString SpecFloat Lia.
From stdpp Require Import base option list gmap strings fin_maps.

Local Open Scope Z_scope.

(** ** Floating point: IEEE-754 binary64 *)

Definition prec : Z := 53.
Definition emax : Z := 1024.

Definition float64 : Set := spec_float.

Definition f64_nan : float64 := S754_nan.
Definition f64_of_Z (z : Z) : float64 := binary_normalize prec emax z 0 false.
Definition f64_div (x y : float64) : float64 := SFdiv prec emax x y.
Definition f64_ltb (x y : float64) : bool := SFltb x y.
Definition f64_leb (x y : float64) : bool := SFleb x y.
Definition f64_eqb (x y : float64) : bool := SFeqb x y.

(** ** Python values that reach the display layer

    A total is a numpy [int64] or [float64] (by the dtype of its column), a
    mean is a [float64], and the default of [.get] is the Python integer 0. *)

Inductive pyval :=
| VInt (z : Z)
| VFloat (x : float64).

Definition to_f64 (v : pyval) : float64 :=
  match v with
  | VInt z => f64_of_Z z
  | VFloat x => x
  end.

(** [a < b], [a > b], [a >= b], [a == b]: between two integers the exact
    comparison, otherwise the float64 comparison (false on NaN). *)
Definition py_lt (a b : pyval) : bool :=
  match a, b with
  | VInt x, VInt y => x <? y
  | _, _ => f64_ltb (to_f64 a) (to_f64 b)
  end.

Definition py_gt (a b : pyval) : bool := py_lt b a.

Definition py_ge (a b : pyval) : bool :=
  match a, b with
  | VInt x, VInt y => y <=? x
  | _, _ => f64_leb (to_f64 b) (to_f64 a)
  end.

Definition py_eq (a b : pyval) : bool :=
  match a, b with
  | VInt x, VInt y => x =? y
  | _, _ => f64_eqb (to_f64 a) (to_f64 b)
  end.

(** [a / b]: true division, in float64. *)
Definition py_truediv (a b : pyval) : float64 := f64_div (to_f64 a) (to_f64 b).

(** ** Strings *)

(** [str(z)] of an integer. *)
Definition str_of_Z (z : Z) : string := NilZero.string_of_int (Z.to_int z).

(** [num / den] rounded to the nearest integer, ties to even ([den > 0]). *)
Definition round_half_even (num den : Z) : Z :=
  let q := num / den in
  match (2 * (num mod den) ?= den) with
  | Lt => q
  | Gt => q + 1
  | Eq => if Z.even q then q else q + 1
  end.

(** The number of tenths nearest to [m * 2^e]. *)
Definition tenths (m : positive) (e : Z) : Z :=
  if 0 <=? e then Z.pos m * 10 * 2 ^ e
  else round_half_even (Z.pos m * 10) (2 ^ (- e)).

Definition sign_str (s : bool) : string := if s then "-" else "".

(** [f"{x:.1f}"]: the exact binary value, correctly rounded to one decimal. *)
Definition fmt_1f (x : float64) : string :=
  match x with
  | S754_nan => "nan"
  | S754_infinity s => sign_str s +:+ "inf"
  | S754_zero s => sign_str s +:+ "0.0"
  | S754_finite s m e =>
      let t := tenths m e in
      sign_str s +:+ str_of_Z (t / 10) +:+ "." +:+ str_of_Z (t mod 10)
  end.

(** [a < b] and [a > b] on [str]: lexicographic, by code point.  A string is
    its UTF-8 bytes, on which the bytewise order is the code point order. *)
Definition str_lt (a b : string) : bool := Stdlib.Strings.String.ltb a b.
Definition str_gt (a b : string) : bool := str_lt b a.

(** The seven bytes app.py has between the value and the closing [**]
    (lines 158, 160, 163 and 165): the UTF-8 of U+00E2 U+0153 U+2026. *)
Definition mark : string :=
  string_of_list_ascii
    (map (fun n => ascii_of_nat n) [195; 162; 197; 147; 226; 128; 166]%nat).

(** ** Cells, columns and frames *)

(** A cell of an [object] column: a Python integer, float or string. *)
Inductive cell :=
| CInt (z : Z)
| CFloat (x : float64)
| CStr (s : string).

(** A column with its dtype.  [read_csv] gives [int64] to a column of
    integers, [float64] to one of numbers some of which are not integers or
    are missing (NaN), and [object] to one that holds text. *)
Inductive Series :=
| Int64 (l : list Z)
| Float64 (l : list float64)
| Object (l : list cell).

Definition cells (s : Series) : list cell :=
  match s with
  | Int64 l => CInt <$> l
  | Float64 l => CFloat <$> l
  | Object l => l
  end.

Inductive dtype := int64 | float64_t | object.

Definition dtype_of (s : Series) : dtype :=
  match s with
  | Int64 _ => int64
  | Float64 _ => float64_t
  | Object _ => object
  end.

(** A frame: the length of its index and its columns, in order.  Every
    column of a pandas frame has the length of the index ([wf_frame]). *)
Record DataFrame := {
  nrows : nat;
  columns : list (string * Series);
}.

Definition wf_frame (df : DataFrame) : Prop :=
  Forall (fun c => length (cells c.2) = nrows df) (columns df).

Fixpoint assoc {A} (name : string) (l : list (string * A)) : option A :=
  match l with
  | [] => None
  | (n, a) :: l => if String.eqb n name then Some a else assoc name l
  end.

Definition has_col (df : DataFrame) (name : string) : bool :=
  match assoc name (columns df) with Some _ => true | None => false end.

(** ** Exceptions *)

Inductive exn :=
| KeyError (missing : list string)  (* a column label that is not in the frame *)
| ValueError                        (* a length mismatch, a date that does not parse *)
| TypeError.                        (* an aggregate on a column that is not numeric *)

Inductive result (A : Type) :=
| Ok (a : A)
| Raise (e : exn).
Arguments Ok {A} a.
Arguments Raise {A} e.

#[global] Instance result_ret : MRet result := fun A a => Ok a.
#[global] Instance result_bind : MBind result := fun A B f m =>
  match m with
  | Ok a => f a
  | Raise e => Raise e
  end.
#[global] Instance result_fmap : FMap result := fun A B f m =>
  match m with
  | Ok a => Ok (f a)
  | Raise e => Raise e
  end.

(** [df[name]]. *)
Definition getitem (df : DataFrame) (name : string) : result Series :=
  match assoc name (columns df) with
  | Some s => Ok s
  | None => Raise (KeyError [name])
  end.

(** ** Step 2: reshape (app.py, lines 24-45) *)

(** [df[[names]].copy()]: the listed columns in the listed order; a
    [KeyError] naming the labels that are not columns of [df]. *)
Definition select (df : DataFrame) (names : list string) : result DataFrame :=
  match List.filter (fun n => negb (has_col df n)) names with
  | [] => Ok {| nrows := nrows df;
                columns := omap (fun n => pair n <$> assoc n (columns df)) names |}
  | missing => Raise (KeyError missing)
  end.

(** [df[name] = value] with a string: the column is replaced where it
    exists and appended otherwise. *)
Definition setitem_str (df : DataFrame) (name value : string) : DataFrame :=
  let s := Object (replicate (nrows df) (CStr value)) in
  {| nrows := nrows df;
     columns :=
       if has_col df name
       then (fun c => if String.eqb c.1 name then (c.1, s) else c) <$> columns df
       else columns df ++ [(name, s)] |}.

(** [df.columns = names]: the columns are renamed by position; a
    [ValueError] when the number of names is not the number of columns. *)
Definition set_columns (df : DataFrame) (names : list string) : result DataFrame :=
  if Nat.eqb (length names) (length (columns df))
  then Ok {| nrows := nrows df; columns := zip names (snd <$> columns df) |}
  else Raise ValueError.

(** The dtype of two columns put end to end: int64 with float64 gives
    float64 (the integers are converted), anything with object gives object. *)
Definition series_concat (s t : Series) : Series :=
  match s, t with
  | Int64 a, Int64 b => Int64 (a ++ b)
  | Int64 a, Float64 b => Float64 ((f64_of_Z <$> a) ++ b)
  | Float64 a, Int64 b => Float64 (a ++ (f64_of_Z <$> b))
  | Float64 a, Float64 b => Float64 (a ++ b)
  | _, _ => Object (cells s ++ cells t)
  end.

(** The column pandas makes up for a label one of the frames lacks. *)
Definition na_col (n : nat) : Series := Float64 (replicate n f64_nan).

(** [pd.concat([a, b], ignore_index=True)]: the rows of [a], then the rows
    of [b], columns matched by label. *)
Definition concat (a b : DataFrame) : DataFrame :=
  {| nrows := nrows a + nrows b;
     columns :=
       ((fun c => (c.1, series_concat c.2
                          (default (na_col (nrows b)) (assoc c.1 (columns b)))))
          <$> columns a)
       ++ omap (fun c => if has_col a c.1 then None
                         else Some (c.1, series_concat (na_col (nrows a)) c.2))
               (columns b) |}.

Definition facebook_fields : list string :=
  ["date_of_campaign"; "facebook_ad_views"; "facebook_ad_clicks";
   "facebook_ad_conversions"; "facebook_cost_per_ad";
   "facebook_ctr"; "facebook_conversion_rate"; "facebook_cost_per_click"].

Definition adword_fields : list string :=
  ["date_of_campaign"; "adword_ad_views"; "adword_ad_clicks";
   "adword_ad_conversions"; "adword_cost_per_ad";
   "adword_ctr"; "adword_conversion_rate"; "adword_cost_per_click"].

Definition long_fields : list string :=
  ["date"; "views"; "clicks"; "conversions"; "cost_per_ad";
   "ctr"; "conversion_rate"; "cost_per_click"; "platform"].

(** Lines 24-33. *)
Definition facebook (df : DataFrame) : result DataFrame :=
  fb ← select df facebook_fields;
  set_columns (setitem_str fb "platform" "Facebook") long_fields.

(** Lines 36-42; [names] is [facebook.columns]. *)
Definition adwords (df : DataFrame) (names : list string) : result DataFrame :=
  aw ← select df adword_fields;
  set_columns (setitem_str aw "platform" "AdWords") names.

(** Lines 24-45: [df_long]. *)
Definition reshape (df : DataFrame) : result DataFrame :=
  fb ← facebook df;
  aw ← adwords df (fst <$> columns fb);
  Ok (concat fb aw).

(** ** Kernels of pandas, numpy and Python that the script calls *)

Class Kernels := {
  (** the sum of a float64 group, NaN skipped *)
  nansum : list float64 -> float64;
  (** the mean of a float64 group, NaN skipped (NaN when nothing is left) *)
  nanmean : list float64 -> float64;
  (** [.round(2)] on a float64 *)
  round2 : float64 -> float64;
  (** [str] of a float64: the shortest decimal that reads back *)
  float_str : float64 -> string;
  (** [pd.to_datetime] on a column: nanoseconds since the epoch, [None] in
      the list for NaT; [None] when it raises *)
  to_datetime : Series -> option (list (option Z));
}.

Section Script.
Context `{K : Kernels}.

(** *** Aggregates of one column *)

Definition wrap64 (z : Z) : Z := (z + 2 ^ 63) mod 2 ^ 64 - 2 ^ 63.

(** [.sum()]: int64 addition wraps around.  On an object column pandas
    would concatenate strings; the script asks for such a sum only in step
    3, next to the mean of the same column, which raises: the sum is given
    the same [TypeError] ([insights] meets numeric columns only, since step
    3 has run before it). *)
Definition series_sum (s : Series) : result pyval :=
  match s with
  | Int64 l => Ok (VInt (wrap64 (foldr Z.add 0 l)))
  | Float64 l => Ok (VFloat (nansum l))
  | Object _ => Raise TypeError
  end.

(** [.mean()]: a float64, also for an int64 column; on an object column
    the groupby mean raises ([TypeError]; [DataError] before pandas 2). *)
Definition series_mean (s : Series) : result pyval :=
  match s with
  | Int64 l => Ok (VFloat (nanmean (f64_of_Z <$> l)))
  | Float64 l => Ok (VFloat (nanmean l))
  | Object _ => Raise TypeError
  end.

(** [.round(2)]: an integer is left as it is. *)
Definition py_round2 (v : pyval) : pyval :=
  match v with
  | VInt z => VInt z
  | VFloat x => VFloat (round2 x)
  end.

(** *** Boolean indexing and groups *)

(** The entries of [l] whose mask is true. *)
Fixpoint keep {A} (mask : list bool) (l : list A) : list A :=
  match mask, l with
  | b :: mask, x :: l => if b then x :: keep mask l else keep mask l
  | _, _ => []
  end.

Definition series_keep (mask : list bool) (s : Series) : Series :=
  match s with
  | Int64 l => Int64 (keep mask l)
  | Float64 l => Float64 (keep mask l)
  | Object l => Object (keep mask l)
  end.

(** [df[mask]]: the dtypes stay. *)
Definition loc (df : DataFrame) (mask : list bool) : DataFrame :=
  {| nrows := length (keep mask (replicate (nrows df) tt));
     columns := (fun c => (c.1, series_keep mask c.2)) <$> columns df |}.

(** The string a cell holds, as a group key or for [isin].  The platform
    column is written by [reshape] and holds strings only; a key that is
    not a string would not be found by [.get("Facebook", 0)] either. *)
Definition str_key (c : cell) : option string :=
  match c with
  | CStr s => Some s
  | _ => None
  end.

(** The rows of a group. *)
Definition key_mask (by_ : Series) (k : string) : list bool :=
  (fun c => bool_decide (str_key c = Some k)) <$> cells by_.

(** The group keys: the distinct strings of the grouping column. *)
Definition group_keys (by_ : Series) : list string :=
  remove_dups (omap str_key (cells by_)).

(** [df.groupby(by)[col].agg()]: one aggregate for each group. *)
Definition groupby_agg (df : DataFrame) (by_ col : string)
    (agg : Series -> result pyval) : result (gmap string pyval) :=
  keys ← getitem df by_;
  s ← getitem df col;
  rows ← mapM (fun k => pair k <$> agg (series_keep (key_mask keys k) s))
              (group_keys keys);
  Ok (list_to_map rows).

(** *** Step 3: the summary table (app.py, lines 56-64) *)

Record SummaryRow := {
  views_sum : pyval;
  views_mean : pyval;
  clicks_sum : pyval;
  clicks_mean : pyval;
  conversions_sum : pyval;
  conversions_mean : pyval;
  cost_per_ad_mean : pyval;
  ctr_mean : pyval;
  conversion_rate_mean : pyval;
  cost_per_click_mean : pyval;
}.

(** The row of one group [g], rounded. *)
Definition summary_row (g : DataFrame) : result SummaryRow :=
  views ← getitem g "views";
  vs ← series_sum views;
  vm ← series_mean views;
  clicks ← getitem g "clicks";
  cs ← series_sum clicks;
  cm ← series_mean clicks;
  conversions ← getitem g "conversions";
  ns ← series_sum conversions;
  nm ← series_mean conversions;
  cost_per_ad ← getitem g "cost_per_ad";
  am ← series_mean cost_per_ad;
  ctr ← getitem g "ctr";
  tm ← series_mean ctr;
  conversion_rate ← getitem g "conversion_rate";
  rm ← series_mean conversion_rate;
  cost_per_click ← getitem g "cost_per_click";
  km ← series_mean cost_per_click;
  Ok {| views_sum := py_round2 vs; views_mean := py_round2 vm;
        clicks_sum := py_round2 cs; clicks_mean := py_round2 cm;
        conversions_sum := py_round2 ns; conversions_mean := py_round2 nm;
        cost_per_ad_mean := py_round2 am; ctr_mean := py_round2 tm;
        conversion_rate_mean := py_round2 rm;
        cost_per_click_mean := py_round2 km |}.

Definition platform_summary (df_long : DataFrame) : result (gmap string SummaryRow) :=
  keys ← getitem df_long "platform";
  rows ← mapM (fun k => pair k <$> summary_row (loc df_long (key_mask keys k)))
              (group_keys keys);
  Ok (list_to_map rows).

(** *** Step 5: the filter (app.py, lines 107-118) *)

(** Line 107.  The converted column is kept beside the frame: after this
    line only the filter (and the charts) read [df_long['date']]. *)
Definition convert_dates (df_long : DataFrame) : result (list (option Z)) :=
  date ← getitem df_long "date";
  match to_datetime date with
  | Some dates => Ok dates
  | None => Raise ValueError
  end.

(** [dates >= t] and [dates <= t], row by row; false on NaT. *)
Definition ge_mask (dates : list (option Z)) (t : Z) : list bool :=
  (fun d => match d with Some x => t <=? x | None => false end) <$> dates.
Definition le_mask (dates : list (option Z)) (t : Z) : list bool :=
  (fun d => match d with Some x => x <=? t | None => false end) <$> dates.

(** [s.isin(values)]. *)
Definition isin (s : Series) (values : list string) : list bool :=
  (fun c => match str_key c with
            | Some k => bool_decide (k ∈ values)
            | None => false
            end) <$> cells s.

(** [a & b]. *)
Definition and_mask (a b : list bool) : list bool := zip_with andb a b.

(** Lines 114-118; [start_date] and [end_date] are the two timestamps
    [pd.to_datetime] makes of the widgets' dates. *)
Definition filtered_data (df_long : DataFrame) (dates : list (option Z))
    (start_date end_date : Z) (platform_options : list string) : result DataFrame :=
  platform ← getitem df_long "platform";
  Ok (loc df_long
        (and_mask (and_mask (ge_mask dates start_date) (le_mask dates end_date))
                  (isin platform platform_options))).

(** *** Step 6: totals and means by platform (app.py, lines 134-139) *)

Record Insights := {
  total_views : gmap string pyval;
  total_clicks : gmap string pyval;
  total_conversions : gmap string pyval;
  avg_ctr : gmap string pyval;
  avg_conversion_rate : gmap string pyval;
  avg_cost_per_click : gmap string pyval;
}.

Definition group_total (df : DataFrame) (col : string) : result (gmap string pyval) :=
  groupby_agg df "platform" col series_sum.

Definition group_avg (df : DataFrame) (col : string) : result (gmap string pyval) :=
  fmap (M := result) (fmap (M := gmap string) py_round2)
       (groupby_agg df "platform" col series_mean).

Definition insights (filtered : DataFrame) : result Insights :=
  tv ← group_total filtered "views";
  tc ← group_total filtered "clicks";
  tn ← group_total filtered "conversions";
  at_ ← group_avg filtered "ctr";
  ar ← group_avg filtered "conversion_rate";
  ak ← group_avg filtered "cost_per_click";
  Ok {| total_views := tv; total_clicks := tc; total_conversions := tn;
        avg_ctr := at_; avg_conversion_rate := ar; avg_cost_per_click := ak |}.

(** *** Step 7: formatting and highlights (app.py, lines 142-194) *)

(** [str(n)], which is also [f"{n}"]. *)
Definition py_str (v : pyval) : string :=
  match v with
  | VInt z => str_of_Z z
  | VFloat x => float_str x
  end.

(** app.py, lines 142-147. *)
Definition format_num (n : pyval) : string :=
  if py_ge n (VInt 1000000) then
    fmt_1f (py_truediv n (VInt 1000000)) +:+ "M"
  else if py_ge n (VInt 1000) then
    fmt_1f (py_truediv n (VInt 1000)) +:+ "K"
  else py_str n.

(** The three shapes of a highlighted pair. *)
Definition fb_best (fb_val aw_val : string) : string :=
  "**FB: " +:+ fb_val +:+ " " +:+ mark +:+ "** | AW: " +:+ aw_val.
Definition aw_best (fb_val aw_val : string) : string :=
  "FB: " +:+ fb_val +:+ " | **AW: " +:+ aw_val +:+ " " +:+ mark +:+ "**".
Definition no_best (fb_val aw_val : string) : string :=
  "FB: " +:+ fb_val +:+ " | AW: " +:+ aw_val.

(** app.py, lines 155-166.  Every call passes two strings (lines 184-191). *)
Definition highlight_metric (fb_val aw_val : string) (metric_type : string) : string :=
  if String.eqb metric_type "higher_better" then
    if str_gt fb_val aw_val then fb_best fb_val aw_val
    else if str_lt fb_val aw_val then aw_best fb_val aw_val
    else no_best fb_val aw_val
  else if String.eqb metric_type "lower_better" then
    if str_lt fb_val aw_val then fb_best fb_val aw_val
    else aw_best fb_val aw_val
  else no_best fb_val aw_val.

(** [series.get(key, 0)] on a Series indexed by platform. *)
Definition get (series : gmap string pyval) (key : string) : pyval :=
  default (VInt 0) (series !! key).

(** app.py, line 194. *)
Definition best_platform (avg_conversion_rate : gmap string pyval) : string :=
  if py_gt (get avg_conversion_rate "Facebook") (get avg_conversion_rate "AdWords")
  then "Facebook" else "AdWords".


(** Lines 169-194: the six highlighted pairs and the best platform. *)
Record Display := {
  views_md : string;
  clicks_md : string;
  conversions_md : string;
  ctr_md : string;
  conv_rate_md : string;
  cpc_md : string;
  best : string;
}.

Definition percent (v : pyval) : string := py_str v +:+ "%".
Definition dollars (v : pyval) : string := "$" +:+ py_str v.

Definition display (i : Insights) : Display :=
  let total_views_fb := format_num (get (total_views i) "Facebook") in
  let total_views_aw := format_num (get (total_views i) "AdWords") in
  let total_clicks_fb := format_num (get (total_clicks i) "Facebook") in
  let total_clicks_aw := format_num (get (total_clicks i) "AdWords") in
  let total_conv_fb := format_num (get (total_conversions i) "Facebook") in
  let total_conv_aw := format_num (get (total_conversions i) "AdWords") in
  let avg_ctr_fb := percent (get (avg_ctr i) "Facebook") in
  let avg_ctr_aw := percent (get (avg_ctr i) "AdWords") in
  let avg_conv_fb := percent (get (avg_conversion_rate i) "Facebook") in
  let avg_conv_aw := percent (get (avg_conversion_rate i) "AdWords") in
  let avg_cpc_fb := dollars (get (avg_cost_per_click i) "Facebook") in
  let avg_cpc_aw := dollars (get (avg_cost_per_click i) "AdWords") in
  {| views_md :=
       "**Views:** " +:+ highlight_metric total_views_fb total_views_aw "higher_better";
     clicks_md :=
       "**Clicks:** " +:+ highlight_metric total_clicks_fb total_clicks_aw "higher_better";
     conversions_md :=
       "**Conversions:** " +:+ highlight_metric total_conv_fb total_conv_aw "higher_better";
     ctr_md :=
       "**Avg CTR:** " +:+ highlight_metric avg_ctr_fb avg_ctr_aw "higher_better";
     conv_rate_md :=
       "**Avg Conv Rate:** " +:+ highlight_metric avg_conv_fb avg_conv_aw "higher_better";
     cpc_md :=
       "**Avg CPC:** " +:+ highlight_metric avg_cpc_fb avg_cpc_aw "lower_better";
     best := best_platform (avg_conversion_rate i) |}.

(** *** The script, from the loaded frame to the text it shows *)

Record Page := {
  page_long : DataFrame;
  page_summary : gmap string SummaryRow;
  page_filtered : DataFrame;
  page_insights : Insights;
  page_display : Display;
}.

Definition dashboard (df : DataFrame) (start_date end_date : Z)
    (platform_options : list string) : result Page :=
  df_long ← reshape df;
  summary ← platform_summary df_long;
  dates ← convert_dates df_long;
  filtered ← filtered_data df_long dates start_date end_date platform_options;
  ins ← insights filtered;
  Ok {| page_long := df_long; page_summary := summary; page_filtered := filtered;
        page_insights := ins; page_display := display ins |}.

End Script.

(** ** Reference kernels

    One instance of [Kernels], to run the script on examples: a left to
    right float64 sum, the mean as that sum over the count, numpy's
    [rint(x * 100) / 100], the decimal form of a multiple of 0.01 (which is
    what [round2] returns, and exact below 10^15), and dates that are
    integers (nanoseconds), missing, or strings of the form YYYY-MM-DD. *)

Definition is_nan (x : float64) : bool :=
  match x with S754_nan => true | _ => false end.

Definition ref_nansum (l : list float64) : float64 :=
  foldl (fun acc x => if is_nan x then acc else SFadd prec emax acc x)
        (S754_zero false) l.

Definition ref_nanmean (l : list float64) : float64 :=
  let valid := List.filter (fun x => negb (is_nan x)) l in
  f64_div (ref_nansum valid) (f64_of_Z (Z.of_nat (length valid))).

(** Round to the nearest integer, ties to even. *)
Definition f64_rint (x : float64) : float64 :=
  match x with
  | S754_finite s m e =>
      if 0 <=? e then x
      else
        let n := round_half_even (Z.pos m) (2 ^ (- e)) in
        if n =? 0 then S754_zero s
        else binary_normalize prec emax (if s then - n else n) 0 s
  | _ => x
  end.

Definition ref_round2 (x : float64) : float64 :=
  f64_div (f64_rint (SFmul prec emax x (f64_of_Z 100))) (f64_of_Z 100).

(** The number of hundredths nearest to [m * 2^e]. *)
Definition hundredths (m : positive) (e : Z) : Z :=
  if 0 <=? e then Z.pos m * 100 * 2 ^ e
  else round_half_even (Z.pos m * 100) (2 ^ (- e)).

Definition ref_float_str (x : float64) : string :=
  match x with
  | S754_nan => "nan"
  | S754_infinity s => sign_str s +:+ "inf"
  | S754_zero s => sign_str s +:+ "0.0"
  | S754_finite s m e =>
      let h := hundredths m e in
      sign_str s +:+ str_of_Z (h / 100) +:+ "." +:+ str_of_Z (h mod 100 / 10)
      +:+ (if h mod 10 =? 0 then "" else str_of_Z (h mod 10))
  end.

(** Days from 1970-01-01 to the day [d] of month [m] of year [y]. *)
Definition days_from_civil (y m d : Z) : Z :=
  let y' := if m <=? 2 then y - 1 else y in
  let era := y' / 400 in
  let yoe := y' - era * 400 in
  let doy := (153 * (if 2 <? m then m - 3 else m + 9) + 2) / 5 + d - 1 in
  era * 146097 + (yoe * 365 + yoe / 4 - yoe / 100 + doy) - 719468.

Definition days_in_month (y m : Z) : Z :=
  if m =? 2 then
    if ((y mod 4 =? 0) && negb (y mod 100 =? 0)) || (y mod 400 =? 0) then 29 else 28
  else if (m =? 4) || (m =? 6) || (m =? 9) || (m =? 11) then 30
  else 31.

Definition digit (a : ascii) : option Z :=
  let n := Z.of_nat (nat_of_ascii a) in
  if (48 <=? n) && (n <=? 57) then Some (n - 48) else None.

Definition is_dash (a : ascii) : bool := Nat.eqb (nat_of_ascii a) 45.

(** YYYY-MM-DD, as nanoseconds since the epoch. *)
Definition parse_iso_date (s : string) : option Z :=
  match list_ascii_of_string s with
  | [y1; y2; y3; y4; a; m1; m2; b; d1; d2] =>
      y1 ← digit y1; y2 ← digit y2; y3 ← digit y3; y4 ← digit y4;
      m1 ← digit m1; m2 ← digit m2; d1 ← digit d1; d2 ← digit d2;
      let y := 1000 * y1 + 100 * y2 + 10 * y3 + y4 in
      let m := 10 * m1 + m2 in
      let d := 10 * d1 + d2 in
      if is_dash a && is_dash b && (1 <=? m) && (m <=? 12)
         && (1 <=? d) && (d <=? days_in_month y m)
      then Some (days_from_civil y m d * 86400000000000)
      else None
  | _ => None
  end.

Definition ref_date (c : cell) : option (option Z) :=
  match c with
  | CInt z => Some (Some z)
  | CFloat x => if is_nan x then Some None else None
  | CStr s => Some <$> parse_iso_date s
  end.

Definition ref_to_datetime (s : Series) : option (list (option Z)) :=
  mapM ref_date (cells s).

#[global] Instance ref_kernels : Kernels := {|
  nansum := ref_nansum;
  nanmean := ref_nanmean;
  round2 := ref_round2;
  float_str := ref_float_str;
  to_datetime := ref_to_datetime;
|}.

(** ** Notions the statements use *)

(** The columns of [df] under the given labels, when all are there. *)
Definition lookup_all (df : DataFrame) (names : list string) : option (list Series) :=
  mapM (fun n => assoc n (columns df)) names.

(** [df_long] for a frame of [n] rows whose Facebook and AdWords columns are
    [fbs] and [aws] (each led by the date column). *)
Definition long_of (n : nat) (fbs aws : list Series) : DataFrame :=
  {| nrows := n + n;
     columns :=
       zip long_fields
         (zip_with series_concat
            (fbs ++ [Object (replicate n (CStr "Facebook"))])
            (aws ++ [Object (replicate n (CStr "AdWords"))])) |}.

(** The cell of row [i] in the column [name]. *)
Definition cell_at (df : DataFrame) (name : string) (i : nat) : option cell :=
  s ← assoc name (columns df); cells s !! i.

Definition column_dtype (df : DataFrame) (name : string) : option dtype :=
  dtype_of <$> assoc name (columns df).

(** What [concat] makes of a cell in a column of dtype [t]: an integer in a
    float64 column is converted, any other cell is kept. *)
Definition promote (t : dtype) (c : cell) : cell :=
  match t, c with
  | float64_t, CInt z => CFloat (f64_of_Z z)
  | _, _ => c
  end.

(** Two platforms whose mean conversion rate is 5.0. *)
Definition tie_summary : gmap string pyval :=
  <["Facebook" := VFloat (f64_of_Z 5)]> (<["AdWords" := VFloat (f64_of_Z 5)]> ∅).

(** The rows of a frame: row [i] holds the cells of the columns, in the
    order of the columns. *)
Fixpoint transpose (n : nat) (cols : list (list cell)) : list (list cell) :=
  match cols with
  | [] => replicate n []
  | c :: cols => zip_with cons c (transpose n cols)
  end.

(** The observations of a frame, in the order of its index. *)
Definition observations (df : DataFrame) : list (list cell) :=
  transpose (nrows df) ((fun c => cells c.2) <$> columns df).

(** The filter, row by row, in the words of the specification: the date
    lies in [start_date, end_date] and the platform is one of the options. *)
Definition retained (start_date end_date : Z) (platform_options : list string)
    (date : option Z) (platform : cell) : bool :=
  match date, platform with
  | Some t, CStr k =>
      (start_date <=? t) && (t <=? end_date) && bool_decide (k ∈ platform_options)
  | _, _ => false
  end.

(** The fifteen fields the script reads (the date is listed twice). *)
Definition expected_fields : list string := facebook_fields ++ adword_fields.

(** The fourteen metric fields. *)
Definition metric_fields : list string := tail facebook_fields ++ tail adword_fields.

(** The frame carries every expected field. *)
Definition full_schema (df : DataFrame) : Prop :=
  forall n, n ∈ expected_fields -> has_col df n = true.

(** A column of dtype int64 or float64. *)
Definition numeric (s : Series) : Prop := dtype_of s <> object.

(** No metric column of the frame holds text. *)
Definition numeric_metrics (df : DataFrame) : Prop :=
  forall n s, n ∈ metric_fields -> assoc n (columns df) = Some s -> numeric s.

(** The seven metric columns of [df_long]. *)
Definition long_metrics : list string :=
  ["views"; "clicks"; "conversions"; "cost_per_ad"; "ctr"; "conversion_rate";
   "cost_per_click"].

Definition numeric_col (df : DataFrame) (name : string) : Prop :=
  exists s, getitem df name = Ok s /\ numeric s.

(** [pd.to_datetime] accepts the date column of [df_long] (line 107). *)
Definition dates_convert `{K : Kernels} (df : DataFrame) : Prop :=
  forall d, assoc "date_of_campaign" (columns df) = Some d ->
            to_datetime (series_concat d d) <> None.

(** *** Sample data *)

Definition f64_ratio (n d : Z) : float64 := f64_div (f64_of_Z n) (f64_of_Z d).

(** Three campaign days. *)
Definition sample_df : DataFrame :=
  {| nrows := 3;
     columns :=
       [("date_of_campaign",
         Object [CStr "2021-12-22"; CStr "2021-12-23"; CStr "2021-12-24"]);
        ("facebook_ad_views", Int64 [1000000; 600000; 400000]);
        ("facebook_ad_clicks", Int64 [10; 20; 30]);
        ("facebook_ad_conversions", Int64 [1; 2; 3]);
        ("facebook_cost_per_ad", Float64 [f64_ratio 3 2; f64_ratio 5 2; f64_ratio 7 2]);
        ("facebook_ctr", Float64 [f64_ratio 1 10; f64_ratio 2 10; f64_ratio 3 10]);
        ("facebook_conversion_rate", Float64 [f64_of_Z 5; f64_of_Z 6; f64_of_Z 7]);
        ("facebook_cost_per_click", Float64 [f64_ratio 1 2; f64_ratio 1 2; f64_ratio 1 2]);
        ("adword_ad_views", Int64 [300000; 300000; 300000]);
        ("adword_ad_clicks", Int64 [15; 25; 35]);
        ("adword_ad_conversions", Int64 [1; 2; 3]);
        ("adword_cost_per_ad", Float64 [f64_ratio 3 2; f64_ratio 5 2; f64_ratio 7 2]);
        ("adword_ctr", Float64 [f64_ratio 1 10; f64_ratio 2 10; f64_ratio 3 10]);
        ("adword_conversion_rate", Float64 [f64_of_Z 5; f64_of_Z 6; f64_of_Z 7]);
        ("adword_cost_per_click", Float64 [f64_ratio 1 2; f64_ratio 1 2; f64_ratio 1 2])] |}.

(** 2021-12-22 and 2021-12-23, midnight, in nanoseconds. *)
Definition dec_22 : Z := 1640131200000000000.
Definition dec_23 : Z := 1640217600000000000.

(** [df_long] of the sample. *)
Definition sample_long : DataFrame :=
  Eval vm_compute in
    match reshape sample_df with
    | Ok long => long
    | Raise _ => {| nrows := 0; columns := [] |}
    end.

(** The converted dates of the sample. *)
Definition sample_dates : list (option Z) :=
  Some <$> [dec_22; dec_23; dec_23 + 86400000000000;
            dec_22; dec_23; dec_23 + 86400000000000].

(** The sample filtered to Facebook, and to no platform at all. *)
Definition sample_facebook_only : DataFrame :=
  Eval vm_compute in
    match filtered_data sample_long sample_dates dec_22 dec_23 ["Facebook"] with
    | Ok filtered => filtered
    | Raise _ => {| nrows := 0; columns := [] |}
    end.

Definition sample_nothing : DataFrame :=
  Eval vm_compute in
    match filtered_data sample_long sample_dates dec_22 dec_23 [] with
    | Ok filtered => filtered
    | Raise _ => {| nrows := 0; columns := [] |}
    end.

(** One campaign day whose Facebook views were typed in as text. *)
Definition text_views_df : DataFrame :=
  {| nrows := 1;
     columns :=
       [("date_of_campaign", Object [CStr "2021-12-22"]);
        ("facebook_ad_views", Object [CStr "many"]);
        ("facebook_ad_clicks", Int64 [10]);
        ("facebook_ad_conversions", Int64 [1]);
        ("facebook_cost_per_ad", Float64 [f64_ratio 3 2]);
        ("facebook_ctr", Float64 [f64_ratio 1 10]);
        ("facebook_conversion_rate", Float64 [f64_of_Z 5]);
        ("facebook_cost_per_click", Float64 [f64_ratio 1 2]);
        ("adword_ad_views", Int64 [300000]);
        ("adword_ad_clicks", Int64 [15]);
        ("adword_ad_conversions", Int64 [1]);
        ("adword_cost_per_ad", Float64 [f64_ratio 3 2]);
        ("adword_ctr", Float64 [f64_ratio 1 10]);
        ("adword_conversion_rate", Float64 [f64_of_Z 5]);
        ("adword_cost_per_click", Float64 [f64_ratio 1 2])] |}.

(** ** Widget defaults (app.py, lines 109-112) *)

Definition ns_per_day : Z := 86400000000000.

(** [dates.min()] and [dates.max()]: NaT is skipped; NaT when nothing is left. *)
Definition dates_min (dates : list (option Z)) : option Z :=
  foldr (fun d acc => match d, acc with
                      | Some t, Some m => Some (Z.min t m)
                      | Some t, None => Some t
                      | None, _ => acc
                      end) None dates.

Definition dates_max (dates : list (option Z)) : option Z :=
  foldr (fun d acc => match d, acc with
                      | Some t, Some m => Some (Z.max t m)
                      | Some t, None => Some t
                      | None, _ => acc
                      end) None dates.

(** [st.date_input(label, value)] before the user picks a date: the calendar
    day of [value], a [datetime.date] (days since the epoch). *)
Definition date_input (value : Z) : Z := value / ns_per_day.

(** [pd.to_datetime(day)] of a [datetime.date]: midnight of that day. *)
Definition datetime_of_date (day : Z) : Z := day * ns_per_day.

(** [series.unique()] on strings, in the order of first appearance. *)
Fixpoint unique_from (seen l : list string) : list string :=
  match l with
  | [] => []
  | x :: l => if bool_decide (x ∈ seen) then unique_from seen l
              else x :: unique_from (x :: seen) l
  end.

Definition unique (s : Series) : list string := unique_from [] (omap str_key (cells s)).

(** Lines 109-112: what the three widgets return before the user touches
    them; [None] where the frame has no date. *)
Definition default_filter (dates : list (option Z)) (platform : Series)
  : option (Z * Z * list string) :=
  lo ← dates_min dates;
  hi ← dates_max dates;
  Some (datetime_of_date (date_input lo), datetime_of_date (date_input hi),
        unique platform).

(** *** Further notions and sample data *)

(** Every date lies in the range and every platform is selected. *)
Definition covered (start_date end_date : Z) (platform_options : list string)
    (dates : list (option Z)) (platform : Series) : Prop :=
  Forall (fun d => exists t, d = Some t /\ start_date <= t /\ t <= end_date) dates
  /\ Forall (fun c => exists k, c = CStr k /\ k ∈ platform_options) (cells platform).

(** The six series of step 6 when no row is left. *)
Definition nothing_selected : Insights :=
  {| total_views := ∅; total_clicks := ∅; total_conversions := ∅;
     avg_ctr := ∅; avg_conversion_rate := ∅; avg_cost_per_click := ∅ |}.

(** The sample with a column the script does not read. *)
Definition sample_df_with_notes : DataFrame :=
  {| nrows := nrows sample_df;
     columns := ("notes", Object [CStr "launch"; CStr ""; CStr "sale"])
                :: columns sample_df |}.

(** A frame that lacks every metric field. *)
Definition dates_only_df : DataFrame :=
  {| nrows := 2;
     columns := [("date_of_campaign", Object [CStr "2021-12-22"; CStr "2021-12-23"])] |}.

(** Two timestamps, the later one at 10:00. *)
Definition late_dates : list (option Z) :=
  [Some dec_22; Some (dec_23 + 36000000000000)].

(** Two campaign days: a Facebook view count is missing (so that column is
    float64) and the AdWords view counts do not fit in 53 bits. *)
Definition big_views_df : DataFrame :=
  {| nrows := 2;
     columns :=
       [("date_of_campaign", Object [CStr "2021-12-22"; CStr "2021-12-23"]);
        ("facebook_ad_views", Float64 [f64_nan; f64_of_Z 400000]);
        ("facebook_ad_clicks", Int64 [10; 20]);
        ("facebook_ad_conversions", Int64 [1; 2]);
        ("facebook_cost_per_ad", Float64 [f64_ratio 3 2; f64_ratio 5 2]);
        ("facebook_ctr", Float64 [f64_ratio 1 10; f64_ratio 2 10]);
        ("facebook_conversion_rate", Float64 [f64_of_Z 5; f64_of_Z 6]);
        ("facebook_cost_per_click", Float64 [f64_ratio 1 2; f64_ratio 1 2]);
        ("adword_ad_views", Int64 [9007199254740993; 2]);
        ("adword_ad_clicks", Int64 [15; 25]);
        ("adword_ad_conversions", Int64 [1; 2]);
        ("adword_cost_per_ad", Float64 [f64_ratio 3 2; f64_ratio 5 2]);
        ("adword_ctr", Float64 [f64_ratio 1 10; f64_ratio 2 10]);
        ("adword_conversion_rate", Float64 [f64_of_Z 5; f64_of_Z 6]);
        ("adword_cost_per_click", Float64 [f64_ratio 1 2; f64_ratio 1 2])] |}.

(** * Properties *)

(** ** Comparisons *)

Lemma SFcompare_antisym (x y : float64) :
  SFcompare y x = CompOpp <$> SFcompare x y.
Proof.
  destruct x as [sx|sx| |sx mx ex], y as [sy|sy| |sy my ey]; simpl;
    try reflexivity;
    try (destruct sx; reflexivity); try (destruct sy; reflexivity);
    try (destruct sx, sy; reflexivity).
  destruct sx, sy; simpl; try reflexivity;
    rewrite (Z.compare_antisym ey ex), (ZC4 my mx);
    destruct (ey ?= ex)%Z; simpl; try reflexivity;
    destruct (Pos.compare_cont Eq mx my); reflexivity.
Qed.

Lemma py_lt_asym (a b : pyval) : py_lt a b = true -> py_lt b a = false.
Proof.
  assert (F : forall x y, f64_ltb x y = true -> f64_ltb y x = false).
  { intros x y. unfold f64_ltb, SFltb. rewrite (SFcompare_antisym x y).
    destruct (SFcompare x y) as [[]|]; simpl; congruence. }
  destruct a, b; simpl; try apply F. lia.
Qed.

Lemma py_eq_not_gt (a b : pyval) : py_eq a b = true -> py_gt a b = false.
Proof.
  assert (F : forall x y, f64_eqb x y = true -> f64_ltb y x = false).
  { intros x y. unfold f64_eqb, f64_ltb, SFeqb, SFltb.
    rewrite (SFcompare_antisym x y).
    destruct (SFcompare x y) as [[]|]; simpl; congruence. }
  unfold py_gt. destruct a, b; simpl; try apply F. lia.
Qed.

Lemma str_lt_irrefl (s : string) : str_lt s s = false.
Proof.
  unfold str_lt, String.ltb.
  pose proof (String.compare_antisym s s) as H.
  destruct (String.compare s s); simpl in H; congruence.
Qed.

Lemma str_lt_compare (a b : string) : str_lt a b = true <-> String.compare a b = Lt.
Proof. unfold str_lt, String.ltb. destruct (String.compare a b); split; congruence. Qed.

Lemma str_gt_compare (a b : string) : str_gt a b = true <-> String.compare a b = Gt.
Proof.
  unfold str_gt. rewrite str_lt_compare, (String.compare_antisym b a).
  destruct (String.compare a b); simpl; split; congruence.
Qed.

(** ** The best platform (line 194) *)

(** C1, as the specification states it, fails: with both means equal to 5.0
    the script names AdWords, not Facebook. *)
Lemma best_platform_tie_is_adwords :
  py_eq (get tie_summary "Facebook") (get tie_summary "AdWords") = true
  /\ best_platform tie_summary = "AdWords"
  /\ best_platform tie_summary <> "Facebook".
Proof. repeat split; [vm_compute; reflexivity ..|]. vm_compute. discriminate. Qed.

(** C1, amended: on a tie [best_platform] is "AdWords" (the else branch of
    the one strict comparison); when one mean is strictly greater, its
    platform is returned. *)
Theorem best_platform_strictly_greater (avg : gmap string pyval) :
  let fb := get avg "Facebook" in
  let aw := get avg "AdWords" in
  (py_eq fb aw = true -> best_platform avg = "AdWords")
  /\ (py_gt fb aw = true -> best_platform avg = "Facebook")
  /\ (py_lt fb aw = true -> best_platform avg = "AdWords").
Proof.
  intros fb aw. unfold best_platform. fold fb aw. repeat split.
  - intros H. now rewrite (py_eq_not_gt _ _ H).
  - intros H. now rewrite H.
  - intros H. unfold py_gt. now rewrite (py_lt_asym _ _ H).
Qed.

(** ** Highlights (lines 155-166) *)

(** C2 at its failing input: on a tie the higher-is-better branch marks no
    platform, the lower-is-better branch marks AdWords. *)
Theorem highlight_metric_tie (v : string) :
  highlight_metric v v "higher_better" = no_best v v
  /\ highlight_metric v v "lower_better" = aw_best v v
  /\ highlight_metric "$0.5" "$0.5" "lower_better" <> no_best "$0.5" "$0.5".
Proof.
  unfold highlight_metric, str_gt. simpl. rewrite str_lt_irrefl.
  repeat split. vm_compute. discriminate.
Qed.

(** A pair is marked by the order of the two strings it is given. *)
Lemma highlight_metric_higher (a b : string) :
  highlight_metric a b "higher_better" =
  match String.compare a b with
  | Gt => fb_best a b
  | Lt => aw_best a b
  | Eq => no_best a b
  end.
Proof.
  unfold highlight_metric. simpl.
  pose proof (str_gt_compare a b) as G. pose proof (str_lt_compare a b) as L.
  destruct (String.compare a b), (str_gt a b), (str_lt a b);
    try reflexivity; intuition congruence.
Qed.

(** ** Formatting (lines 142-147) *)

Lemma round_half_even_nearest (num den : Z) :
  0 < den -> Z.abs (2 * (num - den * round_half_even num den)) <= den.
Proof.
  intros Hd. unfold round_half_even.
  pose proof (Z.div_mod num den ltac:(lia)) as E.
  pose proof (Z.mod_pos_bound num den Hd) as B.
  destruct (Z.compare_spec (2 * (num mod den)) den);
    [destruct (Z.even (num / den))|..]; nia.
Qed.

Section Formatting.
Context `{K : Kernels}.

(** C8: [format_num] abbreviates a value of at least a million with one
    decimal and "M", a value of at least a thousand with one decimal and
    "K", and writes any other value as [str] does; 999, 1000 and 1500000
    give "999", "1.0K" and "1.5M". *)
Theorem format_num_cases (n : pyval) :
  (py_ge n (VInt 1000000) = true ->
     format_num n = fmt_1f (py_truediv n (VInt 1000000)) +:+ "M")
  /\ (py_ge n (VInt 1000000) = false -> py_ge n (VInt 1000) = true ->
     format_num n = fmt_1f (py_truediv n (VInt 1000)) +:+ "K")
  /\ (py_ge n (VInt 1000000) = false -> py_ge n (VInt 1000) = false ->
     format_num n = py_str n)
  /\ (forall z : Z,
        (1000000 <= z ->
           format_num (VInt z) =
           fmt_1f (f64_div (f64_of_Z z) (f64_of_Z 1000000)) +:+ "M")
        /\ (1000 <= z < 1000000 ->
           format_num (VInt z) =
           fmt_1f (f64_div (f64_of_Z z) (f64_of_Z 1000)) +:+ "K")
        /\ (z < 1000 -> format_num (VInt z) = str_of_Z z))
  /\ format_num (VInt 999) = "999"
  /\ format_num (VInt 1000) = "1.0K"
  /\ format_num (VInt 1500000) = "1.5M".
Proof.
  unfold format_num. repeat split.
  - intros ->. reflexivity.
  - intros -> ->. reflexivity.
  - intros -> ->. reflexivity.
  - intros H. simpl. destruct (Z.leb_spec 1000000 z); [reflexivity | lia].
  - intros H. simpl. destruct (Z.leb_spec 1000000 z); [lia |].
    destruct (Z.leb_spec 1000 z); [reflexivity | lia].
  - intros H. simpl. destruct (Z.leb_spec 1000000 z); [lia |].
    destruct (Z.leb_spec 1000 z); [lia | reflexivity].
Qed.

(** The first pair the page shows, for any totals. *)
Lemma views_md_display (i : Insights) :
  views_md (display i) =
  "**Views:** " +:+
    highlight_metric (format_num (get (total_views i) "Facebook"))
                     (format_num (get (total_views i) "AdWords")) "higher_better".
Proof. reflexivity. Qed.

(** C9: the mark goes by the order of the formatted strings.  With
    2,000,000 views on Facebook ("2.0M") and 900,000 on AdWords ("900.0K")
    AdWords is marked, because "2" sorts before "9". *)
Theorem highlight_compares_formatted_strings :
  (forall i : Insights,
     let fb := format_num (get (total_views i) "Facebook") in
     let aw := format_num (get (total_views i) "AdWords") in
     views_md (display i) =
     "**Views:** " +:+ match String.compare fb aw with
                       | Gt => fb_best fb aw
                       | Lt => aw_best fb aw
                       | Eq => no_best fb aw
                       end)
  /\ format_num (VInt 2000000) = "2.0M"
  /\ format_num (VInt 900000) = "900.0K"
  /\ (exists fb aw : Z,
        aw < fb
        /\ py_gt (VInt fb) (VInt aw) = true
        /\ highlight_metric (format_num (VInt fb)) (format_num (VInt aw))
             "higher_better"
           = aw_best (format_num (VInt fb)) (format_num (VInt aw)))
  /\ (forall i : Insights,
        total_views i !! "Facebook" = Some (VInt 2000000) ->
        total_views i !! "AdWords" = Some (VInt 900000) ->
        views_md (display i) =
        "**Views:** FB: 2.0M | **AW: 900.0K " +:+ mark +:+ "**").
Proof.
  split; [|split; [|split; [|split]]].
  - intros i fb aw. rewrite views_md_display. fold fb aw.
    now rewrite highlight_metric_higher.
  - reflexivity.
  - reflexivity.
  - exists 2000000, 900000. split; [lia | split; reflexivity].
  - intros i Hf Ha. rewrite views_md_display. unfold get. rewrite Hf, Ha.
    reflexivity.
Qed.

End Formatting.

(** ** Column selection and reshape *)

Lemma select_lookup_all df names :
  select df names =
  match lookup_all df names with
  | Some ss => Ok {| nrows := nrows df; columns := zip names ss |}
  | None => Raise (KeyError (List.filter (fun n => negb (has_col df n)) names))
  end.
Proof.
  unfold select, lookup_all.
  assert (H : match mapM (fun n => assoc n (columns df)) names with
              | Some ss => List.filter (fun n => negb (has_col df n)) names = []
                           /\ omap (fun n => pair n <$> assoc n (columns df)) names = zip names ss
              | None => List.filter (fun n => negb (has_col df n)) names <> []
              end).
  { induction names as [|n names IH]; [done|].
    assert (Hc : has_col df n =
                 match assoc n (columns df) with Some _ => true | None => false end)
      by reflexivity.
    cbn [mapM List.filter omap list_omap]. rewrite Hc.
    destruct (assoc n (columns df)) as [s|]; simpl; [|done].
    destruct (mapM _ names) as [ss|]; simpl; [|done].
    destruct IH as [-> IH]. split; [done|]. f_equal. exact IH. }
  destruct (mapM _ names) as [ss|].
  - destruct H as [-> ->]. done.
  - destruct (List.filter _ names); done.
Qed.

Lemma lookup_all_length df names ss :
  lookup_all df names = Some ss -> length ss = length names.
Proof. intros H. symmetry. exact (length_mapM _ _ _ H). Qed.

Lemma reshape_ok df fbs aws :
  lookup_all df facebook_fields = Some fbs ->
  lookup_all df adword_fields = Some aws ->
  reshape df = Ok (long_of (nrows df) fbs aws).
Proof.
  intros Hf Ha.
  pose proof (lookup_all_length _ _ _ Hf) as Lf.
  pose proof (lookup_all_length _ _ _ Ha) as La.
  unfold reshape, facebook, adwords. rewrite !select_lookup_all, Hf, Ha.
  do 9 (destruct fbs as [|? fbs]; try discriminate Lf).
  do 9 (destruct aws as [|? aws]; try discriminate La).
  reflexivity.
Qed.

Lemma reshape_raise_facebook df :
  lookup_all df facebook_fields = None ->
  reshape df = Raise (KeyError (List.filter (fun n => negb (has_col df n)) facebook_fields)).
Proof.
  intros Hf. unfold reshape, facebook. now rewrite select_lookup_all, Hf.
Qed.

Lemma reshape_raise_adwords df fbs :
  lookup_all df facebook_fields = Some fbs ->
  lookup_all df adword_fields = None ->
  reshape df = Raise (KeyError (List.filter (fun n => negb (has_col df n)) adword_fields)).
Proof.
  intros Hf Ha. pose proof (lookup_all_length _ _ _ Hf) as Lf.
  unfold reshape, facebook, adwords. rewrite !select_lookup_all, Hf, Ha.
  do 9 (destruct fbs as [|? fbs]; try discriminate Lf).
  reflexivity.
Qed.

Lemma reshape_inv df long :
  reshape df = Ok long ->
  exists fbs aws,
    lookup_all df facebook_fields = Some fbs
    /\ lookup_all df adword_fields = Some aws
    /\ long = long_of (nrows df) fbs aws.
Proof.
  intros H.
  destruct (lookup_all df facebook_fields) as [fbs|] eqn:Hf.
  2:{ rewrite (reshape_raise_facebook _ Hf) in H. discriminate. }
  destruct (lookup_all df adword_fields) as [aws|] eqn:Ha.
  2:{ rewrite (reshape_raise_adwords _ _ Hf Ha) in H. discriminate. }
  rewrite (reshape_ok _ _ _ Hf Ha) in H. exists fbs, aws. naive_solver.
Qed.

Lemma promote_object (l : list cell) : promote object <$> l = l.
Proof. induction l as [|c l IH]; [done|]. now rewrite fmap_cons, IH. Qed.

Lemma cells_series_concat a b :
  cells (series_concat a b) =
  promote (dtype_of (series_concat a b)) <$> (cells a ++ cells b).
Proof.
  destruct a, b; simpl; rewrite ?promote_object; try reflexivity;
    rewrite ?fmap_app, <- ?list_fmap_compose; reflexivity.
Qed.

Lemma assoc_wf df name s :
  wf_frame df -> assoc name (columns df) = Some s -> length (cells s) = nrows df.
Proof.
  unfold wf_frame. generalize (nrows df). intros n.
  induction (columns df) as [|[n' s'] l IH]; simpl; [done|].
  intros Hwf. inversion Hwf; subst.
  destruct (String.eqb n' name); [|auto]. intros [= <-]. done.
Qed.


Lemma length_cells_concat a b :
  length (cells (series_concat a b)) = (length (cells a) + length (cells b))%nat.
Proof. now rewrite cells_series_concat, length_fmap, length_app. Qed.

Lemma concat_cells_at a b n i :
  length (cells a) = n -> length (cells b) = n -> (i < n)%nat ->
  exists cf ca,
    cells a !! i = Some cf /\ cells b !! i = Some ca
    /\ cells (series_concat a b) !! i
       = Some (promote (dtype_of (series_concat a b)) cf)
    /\ cells (series_concat a b) !! (n + i)%nat
       = Some (promote (dtype_of (series_concat a b)) ca).
Proof.
  intros La Lb Hi.
  destruct (lookup_lt_is_Some_2 (cells a) i) as [cf Hcf]; [lia|].
  destruct (lookup_lt_is_Some_2 (cells b) i) as [ca Hca]; [lia|].
  exists cf, ca. rewrite cells_series_concat, !list_lookup_fmap.
  rewrite lookup_app_l by lia. rewrite lookup_app_r by lia.
  replace (n + i - length (cells a))%nat with i by lia.
  now rewrite Hcf, Hca.
Qed.

(** C3: [reshape] turns N records into 2N observations.  Row [i] is tagged
    "Facebook" and holds the date and the facebook fields of record [i], row
    [N + i] is tagged "AdWords" and holds the date and the adword fields of
    record [i], under the shared names; a cell is kept as it is, except that
    an integer is converted where [concat] makes the column float64. *)
Theorem reshape_observations (df long : DataFrame) :
  wf_frame df ->
  reshape df = Ok long ->
  nrows long = (nrows df + nrows df)%nat
  /\ fst <$> columns long = long_fields
  /\ wf_frame long
  /\ forall i, (i < nrows df)%nat ->
       cell_at long "platform" i = Some (CStr "Facebook")
       /\ cell_at long "platform" (nrows df + i) = Some (CStr "AdWords")
       /\ forall k field fb_field aw_field,
            long_fields !! k = Some field ->
            facebook_fields !! k = Some fb_field ->
            adword_fields !! k = Some aw_field ->
            exists t cf ca,
              column_dtype long field = Some t
              /\ cell_at df fb_field i = Some cf
              /\ cell_at df aw_field i = Some ca
              /\ cell_at long field i = Some (promote t cf)
              /\ cell_at long field (nrows df + i) = Some (promote t ca).
Proof.
  intros Hwf H. apply reshape_inv in H as (fbs & aws & Hf & Ha & ->).
  pose proof (lookup_all_length _ _ _ Hf) as Lf.
  pose proof (lookup_all_length _ _ _ Ha) as La.
  do 9 (destruct fbs as [|? fbs]; try discriminate Lf).
  do 9 (destruct aws as [|? aws]; try discriminate La).
  clear Lf La. unfold lookup_all, facebook_fields, adword_fields in Hf, Ha.
  cbn [mapM] in Hf, Ha. simplify_option_eq.
  repeat match goal with
         | E : assoc _ (columns df) = Some _ |- _ =>
             pose proof (assoc_wf _ _ _ Hwf E); revert E
         end.
  intros. split; [reflexivity|]. split; [reflexivity|]. split.
  { unfold wf_frame, long_of. cbn.
    repeat constructor; cbn; rewrite ?length_cells_concat, ?length_app, ?length_replicate; lia. }
  intros i Hi. split; [|split].
  - unfold cell_at. cbn. rewrite lookup_app_l by (rewrite length_replicate; lia).
    now apply lookup_replicate_2.
  - unfold cell_at. cbn. rewrite lookup_app_r by (rewrite length_replicate; lia).
    rewrite length_replicate. apply lookup_replicate_2. lia.
  - intros k field fb_field aw_field Hk Hfk Hak.
    do 8 (destruct k as [|k];
          [ cbn in Hk, Hfk, Hak; simplify_eq; unfold cell_at, column_dtype; cbn;
            match goal with
            | |- context [series_concat ?a ?b] =>
                destruct (concat_cells_at a b (nrows df) i) as (cf & ca & E1 & E2 & E3 & E4);
                [assumption .. |]; exists (dtype_of (series_concat a b)), cf, ca
            end;
            repeat match goal with
                   | E : assoc _ (columns df) = Some _ |- _ => rewrite E; clear E
                   end; cbn; auto
          | ]).
    cbn in Hfk. destruct k; discriminate.
Qed.

(** ** Groups *)
Lemma mapM_result_ok {A B} (f : A -> result B) (l : list A) :
  (forall x, x ∈ l -> exists y, f x = Ok y) -> exists k, mapM f l = Ok k.
Proof.
  induction l as [|x l IH]; intros H; [by exists []|].
  destruct (H x) as [y Hy]; [left|].
  destruct IH as [k Hk]; [intros; apply H; by right|].
  exists (y :: k). cbn. now rewrite Hy, Hk.
Qed.

Lemma mapM_pair_lookup {V} (f : string -> result V) (ks : list string)
    (rows : list (string * V)) (k : string) :
  mapM (fun k => pair k <$> f k) ks = Ok rows ->
  (k ∈ ks -> exists v, f k = Ok v /\ (list_to_map rows : gmap string V) !! k = Some v)
  /\ (k ∉ ks -> (list_to_map rows : gmap string V) !! k = None).
Proof.
  revert rows. induction ks as [|k0 ks IH]; intros rows H; cbn in H.
  - injection H as <-. split; [intros Hk; inversion Hk | done].
  - destruct (f k0) as [v0|] eqn:E0; [|discriminate]. cbn in H.
    destruct (mapM _ ks) as [rows'|] eqn:E; [|discriminate]. cbn in H.
    injection H as <-. destruct (IH rows' eq_refl) as [IH1 IH2]. cbn.
    destruct (decide (k0 = k)) as [->|Hne].
    + split; [|intros Hn; exfalso; apply Hn; left].
      intros _. exists v0. split; [done|]. apply lookup_insert_eq.
    + rewrite lookup_insert_ne by done. split.
      * intros Hk. apply IH1. inversion Hk; subst; done.
      * intros Hk. apply IH2. intros Hk'. apply Hk. by right.
Qed.

Lemma elem_of_group_keys (s : Series) (k : string) :
  k ∈ group_keys s <-> CStr k ∈ cells s.
Proof.
  unfold group_keys. rewrite elem_of_remove_dups, list_elem_of_omap. split.
  - intros (c & Hc & E). destruct c; simplify_eq; cbn in E; simplify_eq. exact Hc.
  - intros H. by exists (CStr k).
Qed.

Section Groups.
Context `{K : Kernels}.

Lemma groupby_agg_lookup df by_ col agg m keys s k :
  groupby_agg df by_ col agg = Ok m ->
  getitem df by_ = Ok keys ->
  getitem df col = Ok s ->
  (CStr k ∈ cells keys ->
     exists v, agg (series_keep (key_mask keys k) s) = Ok v /\ m !! k = Some v)
  /\ (CStr k ∉ cells keys -> m !! k = None).
Proof.
  unfold groupby_agg. intros H E1 E2. rewrite E1 in H. cbn in H. rewrite E2 in H. cbn in H.
  destruct (mapM _ (group_keys keys)) as [rows|] eqn:E; [|discriminate].
  cbn in H. injection H as <-.
  destruct (mapM_pair_lookup _ _ _ k E) as [H1 H2].
  rewrite <- elem_of_group_keys. split; auto.
Qed.

Lemma groupby_agg_absent df by_ col agg m keys k :
  groupby_agg df by_ col agg = Ok m ->
  getitem df by_ = Ok keys ->
  CStr k ∉ cells keys -> m !! k = None.
Proof.
  unfold groupby_agg. intros H E Hk. rewrite E in H. cbn in H.
  destruct (getitem df col) as [s|]; [|discriminate]. cbn in H.
  destruct (mapM _ (group_keys keys)) as [rows|] eqn:Em; [|discriminate].
  cbn in H. injection H as <-.
  apply (mapM_pair_lookup _ _ _ k Em). now rewrite elem_of_group_keys.
Qed.

End Groups.

(** ** Totals and means of the filtered data (lines 134-139, 169-180) *)

Section Insights.
Context `{K : Kernels}.

Lemma insights_inv filtered ins :
  insights filtered = Ok ins ->
  group_total filtered "views" = Ok (total_views ins)
  /\ group_total filtered "clicks" = Ok (total_clicks ins)
  /\ group_total filtered "conversions" = Ok (total_conversions ins)
  /\ group_avg filtered "ctr" = Ok (avg_ctr ins)
  /\ group_avg filtered "conversion_rate" = Ok (avg_conversion_rate ins)
  /\ group_avg filtered "cost_per_click" = Ok (avg_cost_per_click ins).
Proof.
  unfold insights. intros H.
  destruct (group_total filtered "views"); [|discriminate].
  destruct (group_total filtered "clicks"); [|discriminate].
  destruct (group_total filtered "conversions"); [|discriminate].
  destruct (group_avg filtered "ctr"); [|discriminate].
  destruct (group_avg filtered "conversion_rate"); [|discriminate].
  destruct (group_avg filtered "cost_per_click"); [|discriminate].
  cbn in H. injection H as <-. cbn. auto 10.
Qed.

Lemma group_total_getitem df col m :
  group_total df col = Ok m -> exists keys, getitem df "platform" = Ok keys.
Proof.
  unfold group_total, groupby_agg. destruct (getitem df "platform"); [eauto|discriminate].
Qed.

Lemma group_total_absent df col m keys k :
  group_total df col = Ok m -> getitem df "platform" = Ok keys ->
  CStr k ∉ cells keys -> m !! k = None.
Proof. apply groupby_agg_absent. Qed.

Lemma group_avg_absent df col m keys k :
  group_avg df col = Ok m -> getitem df "platform" = Ok keys ->
  CStr k ∉ cells keys -> m !! k = None.
Proof.
  unfold group_avg. intros H E Hk.
  destruct (groupby_agg df "platform" col series_mean) as [m'|] eqn:Em; [|discriminate].
  cbn in H. injection H as <-. rewrite lookup_fmap.
  now rewrite (groupby_agg_absent _ _ _ _ _ _ _ Em E Hk).
Qed.

Lemma no_cell_not_elem df keys p :
  getitem df "platform" = Ok keys ->
  (forall i, cell_at df "platform" i <> Some (CStr p)) ->
  CStr p ∉ cells keys.
Proof.
  unfold getitem, cell_at. destruct (assoc "platform" (columns df)); [|discriminate].
  intros [= ->] H [i Hi]%list_elem_of_lookup. exact (H i Hi).
Qed.

(** C7: a platform with no observation in the filtered data has no entry
    in any of the six grouped series, and [.get(platform, 0)] gives the
    integer 0 for its totals and its means alike (shown as "0", "0%", "$0"). *)
Theorem absent_platform_defaults (filtered : DataFrame) (ins : Insights) (p : string) :
  insights filtered = Ok ins ->
  (forall i, cell_at filtered "platform" i <> Some (CStr p)) ->
  (total_views ins !! p = None /\ total_clicks ins !! p = None
   /\ total_conversions ins !! p = None /\ avg_ctr ins !! p = None
   /\ avg_conversion_rate ins !! p = None /\ avg_cost_per_click ins !! p = None)
  /\ (get (total_views ins) p = VInt 0 /\ get (total_clicks ins) p = VInt 0
      /\ get (total_conversions ins) p = VInt 0 /\ get (avg_ctr ins) p = VInt 0
      /\ get (avg_conversion_rate ins) p = VInt 0
      /\ get (avg_cost_per_click ins) p = VInt 0)
  /\ format_num (get (total_views ins) p) = "0"
  /\ percent (get (avg_ctr ins) p) = "0%"
  /\ dollars (get (avg_cost_per_click ins) p) = "$0".
Proof.
  intros H Hp. destruct (insights_inv _ _ H) as (Hv & Hc & Hn & Ht & Hr & Hk).
  destruct (group_total_getitem _ _ _ Hv) as [keys E].
  pose proof (no_cell_not_elem _ _ _ E Hp) as Hk'.
  pose proof (group_total_absent _ _ _ _ _ Hv E Hk') as A1.
  pose proof (group_total_absent _ _ _ _ _ Hc E Hk') as A2.
  pose proof (group_total_absent _ _ _ _ _ Hn E Hk') as A3.
  pose proof (group_avg_absent _ _ _ _ _ Ht E Hk') as A4.
  pose proof (group_avg_absent _ _ _ _ _ Hr E Hk') as A5.
  pose proof (group_avg_absent _ _ _ _ _ Hk E Hk') as A6.
  unfold get. rewrite A1, A2, A3, A4, A5, A6. cbn. auto 20.
Qed.

Lemma groupby_agg_empty df by_ col agg keys s :
  getitem df by_ = Ok keys -> cells keys = [] -> getitem df col = Ok s ->
  groupby_agg df by_ col agg = Ok ∅.
Proof.
  intros E1 E2 E3. unfold groupby_agg, group_keys. rewrite E1. cbn.
  rewrite E3, E2. reflexivity.
Qed.

Lemma header_long_columns (df : DataFrame) :
  fst <$> columns df = long_fields ->
  exists d v c n a t r k p,
    columns df = [("date", d); ("views", v); ("clicks", c); ("conversions", n);
                  ("cost_per_ad", a); ("ctr", t); ("conversion_rate", r);
                  ("cost_per_click", k); ("platform", p)].
Proof.
  intros H. destruct (columns df) as [|[? d] l]; [discriminate|].
  do 8 (destruct l as [|[? ?] l]; [discriminate|]).
  destruct l; [|discriminate]. cbn in H. unfold long_fields in H. simplify_eq.
  eauto 10.
Qed.

(** C10: on an empty filtered dataset the six series are computed and are
    empty, both conversion-rate lookups give the default 0, and the best
    platform is "AdWords". *)
Theorem empty_filter_best_is_adwords (filtered : DataFrame) :
  fst <$> columns filtered = long_fields ->
  (forall i, cell_at filtered "platform" i = None) ->
  exists ins,
    insights filtered = Ok ins
    /\ avg_conversion_rate ins !! "Facebook" = None
    /\ avg_conversion_rate ins !! "AdWords" = None
    /\ get (avg_conversion_rate ins) "Facebook" = VInt 0
    /\ get (avg_conversion_rate ins) "AdWords" = VInt 0
    /\ best_platform (avg_conversion_rate ins) = "AdWords"
    /\ best (display ins) = "AdWords".
Proof.
  intros Hh Hp. destruct (header_long_columns _ Hh) as (d & v & c & n & a & t & r & k & p & E).
  assert (Ep : cells p = []).
  { specialize (Hp 0%nat). unfold cell_at in Hp. rewrite E in Hp. cbn in Hp.
    destruct (cells p); [done | discriminate]. }
  assert (G : forall col s agg, getitem filtered col = Ok s ->
                groupby_agg filtered "platform" col agg = Ok ∅).
  { intros col s agg Hs. apply (groupby_agg_empty _ _ _ _ p s); [|done|done].
    unfold getitem. now rewrite E. }
  eexists. split.
  - unfold insights, group_total, group_avg.
    rewrite (G "views" v), (G "clicks" c), (G "conversions" n), (G "ctr" t),
      (G "conversion_rate" r), (G "cost_per_click" k)
      by (unfold getitem; now rewrite E).
    cbn. reflexivity.
  - cbn. rewrite fmap_empty. repeat split.
Qed.

End Insights.

(** ** The filter (lines 107-118) *)

Lemma retained_spec s e P d c :
  retained s e P d c = true <->
  exists t k, d = Some t /\ s <= t /\ t <= e /\ c = CStr k /\ k ∈ P.
Proof.
  unfold retained. split.
  - destruct d as [t|]; [|discriminate]. destruct c as [| |k]; try discriminate.
    rewrite !andb_true_iff, !Z.leb_le, bool_decide_eq_true.
    intros [[Hs He] Hk]. exists t, k. auto.
  - intros (t & k & -> & Hs & He & -> & Hk).
    rewrite !andb_true_iff, !Z.leb_le, bool_decide_eq_true. auto.
Qed.

Lemma keep_zip_with {A B C} (f : A -> B -> C) mask (a : list A) (b : list B) :
  keep mask (zip_with f a b) = zip_with f (keep mask a) (keep mask b).
Proof.
  revert a b. induction mask as [|m mask IH]; intros [|x a] [|y b]; cbn; try done.
  - destruct m; cbn; [done|]. now destruct (keep mask a).
  - destruct m; cbn; now rewrite IH.
Qed.

Lemma keep_replicate {A} mask n (x : A) :
  keep mask (replicate n x) = replicate (length (keep mask (replicate n tt))) x.
Proof.
  revert n. induction mask as [|m mask IH]; intros [|n]; cbn; try done.
  destruct m; cbn; now rewrite IH.
Qed.

Lemma keep_transpose mask n cols :
  keep mask (transpose n cols) =
  transpose (length (keep mask (replicate n tt))) (keep mask <$> cols).
Proof.
  induction cols as [|c cols IH]; cbn.
  - apply keep_replicate.
  - now rewrite keep_zip_with, IH.
Qed.

Lemma cells_series_keep mask s : cells (series_keep mask s) = keep mask (cells s).
Proof.
  assert (F : forall A (f : A -> cell) l, f <$> keep mask l = keep mask (f <$> l)).
  { intros A f. induction mask as [|m mask IH]; intros [|x l]; cbn; try done.
    destruct m; cbn; now rewrite IH. }
  destruct s; cbn; auto.
Qed.

Lemma observations_loc df mask :
  observations (loc df mask) = keep mask (observations df).
Proof.
  unfold observations, loc. cbn. rewrite keep_transpose. f_equal.
  rewrite <- !list_fmap_compose. apply list_fmap_ext. intros _ [n s] _. cbn.
  apply cells_series_keep.
Qed.

(** The three masks of lines 115-117, joined, on the rows they meet. *)
Lemma keep_filter_mask {A} s e P (dates : list (option Z)) (pcells : list cell)
    (l : list A) :
  keep (and_mask (and_mask (ge_mask dates s) (le_mask dates e))
                 ((fun c => match str_key c with
                            | Some k => bool_decide (k ∈ P)
                            | None => false
                            end) <$> pcells)) l
  = (List.filter (fun r => retained s e P r.1.1 r.1.2) (zip (zip dates pcells) l)).*2.
Proof.
  revert pcells l. induction dates as [|d dates IH]; intros [|c pcells] [|x l];
    cbn; try done.
  rewrite IH. unfold retained at 2. cbn.
  destruct d as [t|]; cbn; [|done].
  destruct c as [| |k]; cbn; rewrite ?andb_false_r; try done.
  destruct ((s <=? t) && (t <=? e) && bool_decide (k ∈ P)); done.
Qed.

(** C5: the filter keeps, in their order, exactly the observations whose
    converted date lies in [start_date, end_date] (both ends included) and
    whose platform is one of the selected ones; [retained] is that test. *)
Theorem filter_retains_exactly (df_long : DataFrame) (dates : list (option Z))
    (start_date end_date : Z) (platform_options : list string) (platform : Series) :
  getitem df_long "platform" = Ok platform ->
  exists filtered,
    filtered_data df_long dates start_date end_date platform_options = Ok filtered
    /\ fst <$> columns filtered = fst <$> columns df_long
    /\ observations filtered =
       (List.filter
          (fun r => retained start_date end_date platform_options r.1.1 r.1.2)
          (zip (zip dates (cells platform)) (observations df_long))).*2
    /\ forall d c,
         retained start_date end_date platform_options d c = true <->
         exists t k, d = Some t /\ start_date <= t /\ t <= end_date
                     /\ c = CStr k /\ k ∈ platform_options.
Proof.
  intros E. unfold filtered_data. rewrite E. cbn [mbind result_bind].
  eexists. split; [reflexivity|]. split; [|split].
  - unfold loc. cbn. rewrite <- list_fmap_compose. now apply list_fmap_ext.
  - rewrite observations_loc. unfold isin. apply keep_filter_mask.
  - intros d c. apply retained_spec.
Qed.

(** ** The summary table (lines 56-64) *)

Lemma keep_true_app {A} (x y : list A) (m : list bool) :
  keep (replicate (length x) true ++ m) (x ++ y) = x ++ keep m y.
Proof. induction x as [|a x IH]; [done|]. cbn. now rewrite IH. Qed.

Lemma keep_false_app {A} (x y : list A) (m : list bool) :
  keep (replicate (length x) false ++ m) (x ++ y) = keep m y.
Proof. induction x as [|a x IH]; [done|]. cbn. now rewrite IH. Qed.

Lemma keep_all_true {A} (y : list A) : keep (replicate (length y) true) y = y.
Proof. induction y as [|a y IH]; [done|]. cbn. now rewrite IH. Qed.

Lemma keep_all_false {A} (y : list A) n : keep (replicate n false) y = [].
Proof. revert y. induction n as [|n IH]; intros [|a y]; cbn; auto. Qed.

Lemma keep_first_half {A} (x y : list A) n :
  length x = n -> keep (replicate n true ++ replicate n false) (x ++ y) = x.
Proof. intros <-. now rewrite keep_true_app, keep_all_false, app_nil_r. Qed.

Lemma keep_second_half {A} (x y : list A) n :
  length x = n -> length y = n ->
  keep (replicate n false ++ replicate n true) (x ++ y) = y.
Proof. intros <- E. rewrite keep_false_app, <- E. apply keep_all_true. Qed.

Lemma key_mask_two (n : nat) (a b k : string) :
  key_mask (Object (replicate n (CStr a) ++ replicate n (CStr b))) k =
  replicate n (bool_decide (a = k)) ++ replicate n (bool_decide (b = k)).
Proof.
  unfold key_mask. cbn [cells]. rewrite fmap_app, !fmap_replicate. cbn.
  f_equal; f_equal; apply bool_decide_ext; naive_solver.
Qed.

Section Summary.
Context `{K : Kernels}.

Ltac result_inv H :=
  repeat (match type of H with
          | context [mbind _ ?m] => destruct m eqn:?; [|discriminate H]
          | context [match ?m with Ok _ => _ | Raise _ => _ end] =>
              destruct m eqn:?; [|discriminate H]
          end; cbn [mbind result_bind] in H).

Lemma platform_summary_lookup long m keys k :
  platform_summary long = Ok m ->
  getitem long "platform" = Ok keys ->
  CStr k ∈ cells keys ->
  exists row, summary_row (loc long (key_mask keys k)) = Ok row /\ m !! k = Some row.
Proof.
  unfold platform_summary. intros H E Hk. rewrite E in H. cbn [mbind result_bind] in H.
  destruct (mapM _ (group_keys keys)) as [rows|] eqn:Em; [|discriminate].
  cbn in H. injection H as <-.
  apply (mapM_pair_lookup _ _ _ k Em). now apply elem_of_group_keys.
Qed.

Lemma summary_row_views g views row :
  summary_row g = Ok row ->
  getitem g "views" = Ok views ->
  Ok (views_sum row) = py_round2 <$> series_sum views.
Proof.
  unfold summary_row. intros H E. rewrite E in H. cbn [mbind result_bind] in H.
  result_inv H. injection H as <-. reflexivity.
Qed.

(** C4, amended: for a dataset with at least one record whose two views
    columns are both int64 (integer view counts, none missing), the
    [views_sum] the summary table holds for a platform is the sum of that
    platform's views column in the wide frame. *)
Theorem summary_views_sum (df long : DataFrame) (m : gmap string SummaryRow)
    (fv av : list Z) :
  wf_frame df ->
  (0 < nrows df)%nat ->
  reshape df = Ok long ->
  platform_summary long = Ok m ->
  getitem df "facebook_ad_views" = Ok (Int64 fv) ->
  getitem df "adword_ad_views" = Ok (Int64 av) ->
  exists rf ra,
    m !! "Facebook" = Some rf /\ m !! "AdWords" = Some ra
    /\ Ok (views_sum rf) = series_sum (Int64 fv)
    /\ Ok (views_sum ra) = series_sum (Int64 av).
Proof.
  intros Hwf Hn H Hm Efv Eav.
  apply reshape_inv in H as (fbs & aws & Hf & Ha & ->).
  pose proof (lookup_all_length _ _ _ Hf) as Lf.
  pose proof (lookup_all_length _ _ _ Ha) as La.
  do 9 (destruct fbs as [|? fbs]; try discriminate Lf).
  do 9 (destruct aws as [|? aws]; try discriminate La).
  clear Lf La. unfold lookup_all, facebook_fields, adword_fields in Hf, Ha.
  cbn [mapM] in Hf, Ha. simplify_option_eq.
  unfold getitem in Efv, Eav.
  repeat match goal with
         | E : assoc _ (columns df) = Some _ |- _ =>
             pose proof (assoc_wf _ _ _ Hwf E); rewrite E in *; clear E
         end.
  simplify_eq. cbn [cells] in *. rewrite length_fmap in *.
  set (n := nrows df) in *.
  set (keys := Object (replicate n (CStr "Facebook") ++ replicate n (CStr "AdWords"))).
  match type of Hm with platform_summary ?l = _ => set (long := l) in * end.
  assert (Ek : getitem long "platform" = Ok keys) by reflexivity.
  assert (In1 : CStr "Facebook" ∈ cells keys).
  { cbn. apply elem_of_app. left. destruct n; [lia|]. left. }
  assert (In2 : CStr "AdWords" ∈ cells keys).
  { cbn. apply elem_of_app. right. destruct n; [lia|]. left. }
  destruct (platform_summary_lookup _ _ _ _ Hm Ek In1) as (rf & Hrf & Lrf).
  destruct (platform_summary_lookup _ _ _ _ Hm Ek In2) as (ra & Hra & Lra).
  exists rf, ra. split; [done|]. split; [done|].
  unfold keys in Hrf, Hra. rewrite key_mask_two in Hrf, Hra.
  split.
  - rewrite (summary_row_views _ (Int64 fv) _ Hrf); [reflexivity|].
    unfold long, getitem. cbn. now rewrite keep_first_half.
  - rewrite (summary_row_views _ (Int64 av) _ Hra); [reflexivity|].
    unfold long, getitem. cbn. now rewrite keep_second_half.
Qed.

End Summary.

(** ** Exceptions *)

Lemma lookup_all_None df names :
  lookup_all df names = None <-> exists n, n ∈ names /\ has_col df n = false.
Proof.
  unfold lookup_all, has_col. induction names as [|n names IH]; cbn.
  - split; [discriminate|]. intros (n & Hn & _). inversion Hn.
  - destruct (assoc n (columns df)) eqn:E; cbn.
    + destruct (mapM _ names) eqn:Em; cbn.
      * split; [discriminate|]. intros (n' & Hn & Hc).
        apply elem_of_cons in Hn as [->|Hn]; [now rewrite E in Hc|].
        assert (X : Some l = None) by (apply IH; eauto). discriminate X.
      * split; [|done]. intros _. destruct (proj1 IH eq_refl) as (n' & Hn & Hc).
        exists n'. split; [by right | done].
    + split; [|done]. intros _. exists n. split; [left|]. now rewrite E.
Qed.

Lemma filter_missing df names n :
  n ∈ List.filter (fun n => negb (has_col df n)) names <->
  n ∈ names /\ has_col df n = false.
Proof.
  rewrite list_elem_of_In, filter_In, <- list_elem_of_In, negb_true_iff. done.
Qed.

Lemma missing_fields df names :
  lookup_all df names = None ->
  List.filter (fun n => negb (has_col df n)) names <> []
  /\ forall n, n ∈ List.filter (fun n => negb (has_col df n)) names ->
               n ∈ names /\ has_col df n = false.
Proof.
  intros (n & Hn & Hc)%lookup_all_None. split.
  - intros X. assert (Y : n ∈ List.filter (fun n => negb (has_col df n)) names)
      by (apply filter_missing; done).
    rewrite X in Y. inversion Y.
  - intros n'. apply filter_missing.
Qed.

(** [reshape] raises exactly when an expected field is missing, and what it
    raises is the [KeyError] that lists the missing fields. *)
Lemma reshape_raises_iff_field_missing (df : DataFrame) :
  ((exists e, reshape df = Raise e) <->
   (exists n, n ∈ expected_fields /\ has_col df n = false))
  /\ (forall e, reshape df = Raise e ->
        exists missing,
          e = KeyError missing /\ missing <> []
          /\ forall n, n ∈ missing -> n ∈ expected_fields /\ has_col df n = false).
Proof.
  unfold expected_fields.
  destruct (lookup_all df facebook_fields) as [fbs|] eqn:Hf.
  - destruct (lookup_all df adword_fields) as [aws|] eqn:Ha.
    + rewrite (reshape_ok _ _ _ Hf Ha). split; [split|].
      * intros [e [=]].
      * intros (n & [Hn|Hn]%elem_of_app & Hc).
        -- assert (X : lookup_all df facebook_fields = None)
             by (apply lookup_all_None; eauto). congruence.
        -- assert (X : lookup_all df adword_fields = None)
             by (apply lookup_all_None; eauto). congruence.
      * intros e [=].
    + rewrite (reshape_raise_adwords _ _ Hf Ha).
      destruct (missing_fields _ _ Ha) as [Hne Hin].
      destruct (proj1 (lookup_all_None _ _) Ha) as (n & Hn & Hc).
      set (missing := List.filter _ _) in *.
      split; [split|].
      * intros _. exists n. split; [apply elem_of_app; by right | done].
      * eauto.
      * intros e He. exists missing. split; [congruence|]. split; [done|].
        intros n' [Hn' Hc']%Hin. split; [apply elem_of_app; by right | done].
  - rewrite (reshape_raise_facebook _ Hf).
    destruct (missing_fields _ _ Hf) as [Hne Hin].
    destruct (proj1 (lookup_all_None _ _) Hf) as (n & Hn & Hc).
    set (missing := List.filter _ _) in *.
    split; [split|].
    + intros _. exists n. split; [apply elem_of_app; by left | done].
    + eauto.
    + intros e He. exists missing. split; [congruence|]. split; [done|].
      intros n' [Hn' Hc']%Hin. split; [apply elem_of_app; by left | done].
Qed.

Lemma numeric_keep mask s : numeric s -> numeric (series_keep mask s).
Proof. unfold numeric. now destruct s. Qed.

Lemma numeric_concat a b : numeric a -> numeric b -> numeric (series_concat a b).
Proof. unfold numeric. now destruct a, b. Qed.

Lemma assoc_fmap {A B} (f : A -> B) name (l : list (string * A)) :
  assoc name ((fun c => (c.1, f c.2)) <$> l) = f <$> assoc name l.
Proof.
  induction l as [|[n a] l IH]; [done|]. cbn. destruct (String.eqb n name); done.
Qed.

Lemma getitem_loc df mask name s :
  getitem df name = Ok s -> getitem (loc df mask) name = Ok (series_keep mask s).
Proof.
  unfold getitem, loc. cbn. rewrite assoc_fmap.
  destruct (assoc name (columns df)); [|discriminate]. now intros [= ->].
Qed.

Lemma numeric_col_loc df mask name :
  numeric_col df name -> numeric_col (loc df mask) name.
Proof.
  intros (s & E & Hs). exists (series_keep mask s).
  split; [now apply getitem_loc | now apply numeric_keep].
Qed.

Section Total.
Context `{K : Kernels}.

Lemma series_sum_numeric s : numeric s -> exists v, series_sum s = Ok v.
Proof. unfold numeric. destruct s; cbn; eauto. done. Qed.

Lemma series_mean_numeric s : numeric s -> exists v, series_mean s = Ok v.
Proof. unfold numeric. destruct s; cbn; eauto. done. Qed.

Lemma summary_row_ok g :
  (forall c, c ∈ long_metrics -> numeric_col g c) -> exists row, summary_row g = Ok row.
Proof.
  intros H. unfold summary_row.
  repeat match goal with
         | |- context [getitem g ?c] =>
             let s := fresh "s" in let E := fresh "E" in let N := fresh "N" in
             destruct (H c) as (s & E & N); [set_solver|]; rewrite E;
             cbn [mbind result_bind];
             let Hs := fresh "Hs" in
             destruct (series_sum_numeric s N) as [? Hs];
             let Hm := fresh "Hm" in
             destruct (series_mean_numeric s N) as [? Hm];
             rewrite ?Hs; cbn [mbind result_bind];
             rewrite ?Hm; cbn [mbind result_bind]; clear E
         end.
  eauto.
Qed.

Lemma platform_summary_ok long keys :
  getitem long "platform" = Ok keys ->
  (forall c, c ∈ long_metrics -> numeric_col long c) ->
  exists m, platform_summary long = Ok m.
Proof.
  intros E H. unfold platform_summary. rewrite E. cbn [mbind result_bind].
  destruct (mapM_result_ok
              (fun k => pair k <$> summary_row (loc long (key_mask keys k)))
              (group_keys keys)) as [rows ->].
  - intros k _. destruct (summary_row_ok (loc long (key_mask keys k))) as [row ->].
    + intros c Hc. apply numeric_col_loc. auto.
    + cbn. eauto.
  - cbn. eauto.
Qed.

Lemma groupby_agg_ok df col agg keys :
  getitem df "platform" = Ok keys ->
  numeric_col df col ->
  (forall s, numeric s -> exists v, agg s = Ok v) ->
  exists m, groupby_agg df "platform" col agg = Ok m.
Proof.
  intros E (s & Es & N) Hagg. unfold groupby_agg. rewrite E. cbn [mbind result_bind].
  rewrite Es. cbn [mbind result_bind].
  destruct (mapM_result_ok
              (fun k => pair k <$> agg (series_keep (key_mask keys k) s))
              (group_keys keys)) as [rows ->].
  - intros k _. destruct (Hagg (series_keep (key_mask keys k) s)) as [v ->].
    + now apply numeric_keep.
    + cbn. eauto.
  - cbn. eauto.
Qed.

Lemma insights_ok filtered keys :
  getitem filtered "platform" = Ok keys ->
  (forall c, c ∈ long_metrics -> numeric_col filtered c) ->
  exists ins, insights filtered = Ok ins.
Proof.
  intros E H. unfold insights, group_total, group_avg.
  repeat match goal with
         | |- context [groupby_agg filtered "platform" ?c ?agg] =>
             let m := fresh "m" in
             destruct (groupby_agg_ok filtered c agg keys E) as [m ->];
             [ apply H; set_solver
             | first [apply series_sum_numeric | apply series_mean_numeric]
             | cbn [mbind result_bind fmap result_fmap] ]
         end.
  eauto.
Qed.

(** With the full schema, numeric metric columns and dates that convert,
    the script runs to its end. *)
Lemma dashboard_total (df : DataFrame) (start_date end_date : Z)
    (platform_options : list string) :
  full_schema df -> numeric_metrics df -> dates_convert df ->
  exists page, dashboard df start_date end_date platform_options = Ok page.
Proof.
  intros Hfull Hnum Hdate.
  destruct (lookup_all df facebook_fields) as [fbs|] eqn:Hf.
  2:{ apply lookup_all_None in Hf as (n & Hn & Hc).
      rewrite Hfull in Hc; [discriminate|]. apply elem_of_app. by left. }
  destruct (lookup_all df adword_fields) as [aws|] eqn:Ha.
  2:{ apply lookup_all_None in Ha as (n & Hn & Hc).
      rewrite Hfull in Hc; [discriminate|]. apply elem_of_app. by right. }
  unfold dashboard. rewrite (reshape_ok _ _ _ Hf Ha). cbn [mbind result_bind].
  pose proof (lookup_all_length _ _ _ Hf) as Lf.
  pose proof (lookup_all_length _ _ _ Ha) as La.
  do 9 (destruct fbs as [|? fbs]; try discriminate Lf).
  do 9 (destruct aws as [|? aws]; try discriminate La).
  clear Lf La. unfold lookup_all, facebook_fields, adword_fields in Hf, Ha.
  cbn [mapM] in Hf, Ha. simplify_option_eq.
  set (long := long_of _ _ _).
  assert (Hlong : forall c, c ∈ long_metrics -> numeric_col long c).
  { intros c Hc. unfold long_metrics in Hc.
    repeat (apply elem_of_cons in Hc as [->|Hc]);
      try (by inversion Hc);
      (eexists; split; [reflexivity|]; apply numeric_concat;
       (eapply Hnum; [|eassumption]; unfold metric_fields; cbn; set_solver)). }
  assert (Ek : exists keys, getitem long "platform" = Ok keys) by (eexists; reflexivity).
  destruct Ek as [keys Ek].
  destruct (platform_summary_ok long keys Ek Hlong) as [m ->]. cbn [mbind result_bind].
  unfold convert_dates.
  assert (Ed : exists d, assoc "date_of_campaign" (columns df) = Some d
                         /\ getitem long "date" = Ok (series_concat d d))
    by (eexists; split; [eassumption | reflexivity]).
  destruct Ed as (d & Ed & ->). cbn [mbind result_bind].
  destruct (to_datetime (series_concat d d)) as [dates|] eqn:Et;
    [|exfalso; exact (Hdate d Ed Et)].
  cbn [mbind result_bind].
  match goal with |- context [loc long ?mask] => set (filtered := loc long mask) end.
  destruct (insights_ok filtered (series_keep _ keys) (getitem_loc _ _ _ _ Ek)) as [ins ->].
  - intros c Hc. apply numeric_col_loc. auto.
  - cbn. eauto.
Qed.

End Total.

Section SchemaError.
Context `{K : Kernels}.

(** C6, amended: [reshape] raises exactly when an expected field is absent,
    and then a [KeyError] naming the absent fields; with the full schema,
    metric columns that are numeric and dates that convert, no step of the
    script raises. *)
Theorem schema_error_is_the_reshape_error (df : DataFrame) (start_date end_date : Z)
    (platform_options : list string) :
  ((exists e, reshape df = Raise e) <->
   (exists n, n ∈ expected_fields /\ has_col df n = false))
  /\ (forall e, reshape df = Raise e ->
        exists missing,
          e = KeyError missing /\ missing <> []
          /\ forall n, n ∈ missing -> n ∈ expected_fields /\ has_col df n = false)
  /\ (full_schema df -> numeric_metrics df -> dates_convert df ->
      exists page, dashboard df start_date end_date platform_options = Ok page).
Proof.
  destruct (reshape_raises_iff_field_missing df) as [H1 H2].
  split; [exact H1|]. split; [exact H2|]. apply dashboard_total.
Qed.

End SchemaError.

(** ** The sample data: the hypotheses hold, the script runs *)

Lemma sample_df_wf : wf_frame sample_df.
Proof. unfold wf_frame. repeat constructor. Qed.

Lemma sample_df_full_schema : full_schema sample_df.
Proof.
  intros n Hn. unfold expected_fields, facebook_fields, adword_fields in Hn.
  cbn in Hn. repeat (apply elem_of_cons in Hn as [->|Hn]); try reflexivity.
  inversion Hn.
Qed.

Lemma sample_df_numeric : numeric_metrics sample_df.
Proof.
  intros n s Hn E. unfold metric_fields, facebook_fields, adword_fields in Hn.
  cbn in Hn. repeat (apply elem_of_cons in Hn as [->|Hn]);
    try (cbn in E; injection E as <-; discriminate).
  inversion Hn.
Qed.

Lemma sample_df_dates : dates_convert sample_df.
Proof. intros d E. cbn in E. injection E as <-. vm_compute. discriminate. Qed.

(** C6, as the specification states it, fails: the frame carries all fifteen
    fields, and the summary table of step 3 raises on the views typed as text. *)
Lemma text_views_raises :
  full_schema text_views_df
  /\ dashboard text_views_df dec_22 dec_23 ["Facebook"; "AdWords"] = Raise TypeError.
Proof.
  split; [|vm_compute; reflexivity].
  intros n Hn. unfold expected_fields, facebook_fields, adword_fields in Hn.
  cbn in Hn. repeat (apply elem_of_cons in Hn as [->|Hn]); try reflexivity.
  inversion Hn.
Qed.

(** C4, as the specification states it, fails: the dataset has two records,
    one Facebook view count is missing, so [pd.concat] makes the views
    column of [df_long] float64; the AdWords counts 9007199254740993 and 2
    become 9007199254740992.0 and 2.0, and the summary shows
    9007199254740994.0 where the wide column sums to 9007199254740995. *)
Lemma float_views_sum_differs :
  wf_frame big_views_df
  /\ (0 < nrows big_views_df)%nat
  /\ getitem big_views_df "adword_ad_views" = Ok (Int64 [9007199254740993; 2])
  /\ series_sum (Int64 [9007199254740993; 2]) = Ok (VInt 9007199254740995)
  /\ (long ← reshape big_views_df;
      m ← platform_summary long;
      Ok (views_sum <$> m !! "AdWords"))
     = Ok (Some (VFloat (f64_of_Z 9007199254740994)))
  /\ py_eq (VFloat (f64_of_Z 9007199254740994)) (VInt 9007199254740995) = false.
Proof.
  split; [unfold wf_frame; repeat constructor|].
  split; [cbn; lia|].
  repeat split; vm_compute; reflexivity.
Qed.

(** C6 at the sample: all fields, numeric metrics, ISO dates. *)
Lemma schema_error_witness :
  full_schema sample_df /\ numeric_metrics sample_df /\ dates_convert sample_df
  /\ exists page, dashboard sample_df dec_22 dec_23 ["Facebook"; "AdWords"] = Ok page.
Proof.
  split; [exact sample_df_full_schema|]. split; [exact sample_df_numeric|].
  split; [exact sample_df_dates|].
  apply (schema_error_is_the_reshape_error sample_df dec_22 dec_23 ["Facebook"; "AdWords"]).
  - exact sample_df_full_schema.
  - exact sample_df_numeric.
  - exact sample_df_dates.
Defined.

(** C3 at the sample: three records, six observations. *)
Lemma reshape_observations_witness :
  wf_frame sample_df /\ reshape sample_df = Ok sample_long
  /\ nrows sample_long = (nrows sample_df + nrows sample_df)%nat
  /\ fst <$> columns sample_long = long_fields.
Proof.
  pose proof (reshape_observations sample_df sample_long sample_df_wf eq_refl)
    as (H1 & H2 & _).
  split; [exact sample_df_wf|]. split; [reflexivity|]. split; [exact H1 | exact H2].
Defined.

(** C4 at the sample: 2,000,000 views on Facebook, 900,000 on AdWords. *)
Lemma summary_views_sum_witness :
  (0 < nrows sample_df)%nat
  /\ exists m rf ra,
       platform_summary sample_long = Ok m
       /\ m !! "Facebook" = Some rf /\ m !! "AdWords" = Some ra
       /\ views_sum rf = VInt 2000000 /\ views_sum ra = VInt 900000.
Proof.
  split; [cbn; lia|].
  destruct (platform_summary sample_long) as [m|e] eqn:E;
    [|vm_compute in E; discriminate E].
  destruct (summary_views_sum sample_df sample_long m
              [1000000; 600000; 400000] [300000; 300000; 300000]
              sample_df_wf ltac:(cbn; lia) eq_refl E eq_refl eq_refl)
    as (rf & ra & H1 & H2 & H3 & H4).
  exists m, rf, ra. split; [reflexivity|]. split; [exact H1|]. split; [exact H2|].
  assert (S1 : series_sum (Int64 [1000000; 600000; 400000]) = Ok (VInt 2000000))
    by (vm_compute; reflexivity).
  assert (S2 : series_sum (Int64 [300000; 300000; 300000]) = Ok (VInt 900000))
    by (vm_compute; reflexivity).
  rewrite S1 in H3. rewrite S2 in H4. split; congruence.
Defined.

(** C5 at the sample, filtered to Facebook on the first two days. *)
Lemma filter_retains_exactly_witness :
  exists platform filtered,
    getitem sample_long "platform" = Ok platform
    /\ filtered_data sample_long sample_dates dec_22 dec_23 ["Facebook"] = Ok filtered
    /\ observations filtered =
       (List.filter (fun r => retained dec_22 dec_23 ["Facebook"] r.1.1 r.1.2)
          (zip (zip sample_dates (cells platform)) (observations sample_long))).*2.
Proof.
  eexists.
  destruct (filter_retains_exactly sample_long sample_dates dec_22 dec_23 ["Facebook"]
              _ eq_refl) as (filtered & H1 & _ & H3 & _).
  exists filtered. split; [reflexivity|]. split; [exact H1 | exact H3].
Defined.

(** C7 at the sample filtered to Facebook: AdWords is absent. *)
Lemma absent_platform_defaults_witness :
  (forall i, cell_at sample_facebook_only "platform" i <> Some (CStr "AdWords"))
  /\ exists ins,
       insights sample_facebook_only = Ok ins
       /\ total_views ins !! "AdWords" = None
       /\ avg_conversion_rate ins !! "AdWords" = None
       /\ get (total_views ins) "AdWords" = VInt 0
       /\ get (avg_conversion_rate ins) "AdWords" = VInt 0.
Proof.
  assert (H : forall i, cell_at sample_facebook_only "platform" i <> Some (CStr "AdWords")).
  { intros [|[|[|i]]]; cbn; discriminate. }
  split; [exact H|].
  destruct (insights sample_facebook_only) as [ins|e] eqn:E;
    [|vm_compute in E; discriminate E].
  destruct (absent_platform_defaults sample_facebook_only ins "AdWords" E H)
    as ((A1 & _ & _ & _ & A5 & _) & (G1 & _ & _ & _ & G5 & _) & _).
  exists ins. auto.
Defined.

(** C10 at the sample filtered to no platform. *)
Lemma empty_filter_witness :
  fst <$> columns sample_nothing = long_fields
  /\ (forall i, cell_at sample_nothing "platform" i = None)
  /\ exists ins,
       insights sample_nothing = Ok ins
       /\ best_platform (avg_conversion_rate ins) = "AdWords".
Proof.
  assert (H : forall i, cell_at sample_nothing "platform" i = None).
  { intros [|i]; reflexivity. }
  split; [reflexivity|]. split; [exact H|].
  destruct (empty_filter_best_is_adwords sample_nothing eq_refl H)
    as (ins & E & _ & _ & _ & _ & B & _).
  exists ins. split; [exact E | exact B].
Defined.

(** The sample, run from the wide frame to the page. *)
Example sample_page :
  exists page,
    dashboard sample_df dec_22 (dec_23 + 86400000000000) ["Facebook"; "AdWords"] = Ok page
    /\ views_md (page_display page) = "**Views:** FB: 2.0M | **AW: 900.0K " +:+ mark +:+ "**"
    /\ conv_rate_md (page_display page) = "**Avg Conv Rate:** FB: 6.0% | AW: 6.0%"
    /\ cpc_md (page_display page) = "**Avg CPC:** FB: $0.5 | **AW: $0.5 " +:+ mark +:+ "**"
    /\ best (page_display page) = "AdWords".
Proof. eexists. vm_compute. repeat split. Qed.

(** Line 107 on the sample, with the reference kernels. *)
Example sample_dates_converted : convert_dates sample_long = Ok sample_dates.
Proof. vm_compute. reflexivity. Qed.

(** * Further properties *)

(** ** What reshape reads, and what it reports *)

Lemma lookup_all_ext df df' names :
  (forall n, n ∈ names -> assoc n (columns df') = assoc n (columns df)) ->
  lookup_all df' names = lookup_all df names
  /\ List.filter (fun n => negb (has_col df' n)) names
     = List.filter (fun n => negb (has_col df n)) names.
Proof.
  unfold lookup_all, has_col. induction names as [|n names IH]; intros H; [done|].
  destruct IH as [IH1 IH2]; [intros; apply H; by right|].
  cbn [mapM List.filter]. rewrite (H n) by left. rewrite IH1, IH2. done.
Qed.

(** X1: [reshape] reads the fifteen expected fields and the length of the
    index, nothing else: two frames of equal length that agree on those
    fields (whatever other columns they carry, in whatever order) give the
    same result, be it [df_long] or the [KeyError]. *)
Theorem reshape_reads_expected_only (df df' : DataFrame) :
  nrows df' = nrows df ->
  (forall n, n ∈ expected_fields -> assoc n (columns df') = assoc n (columns df)) ->
  reshape df' = reshape df.
Proof.
  intros Hn H.
  destruct (lookup_all_ext df df' facebook_fields) as [Ef Mf].
  { intros n Hin. apply H, elem_of_app. by left. }
  destruct (lookup_all_ext df df' adword_fields) as [Ea Ma].
  { intros n Hin. apply H, elem_of_app. by right. }
  destruct (lookup_all df facebook_fields) as [fbs|] eqn:Hf.
  - destruct (lookup_all df adword_fields) as [aws|] eqn:Ha.
    + rewrite (reshape_ok _ _ _ Ef Ea), (reshape_ok _ _ _ Hf Ha), Hn. done.
    + rewrite (reshape_raise_adwords _ _ Ef Ea), (reshape_raise_adwords _ _ Hf Ha), Ma.
      done.
  - rewrite (reshape_raise_facebook _ Ef), (reshape_raise_facebook _ Hf), Mf. done.
Qed.

Section KeyErrorOrder.
Context `{K : Kernels}.

(** X2: the script stops at the first selection that misses a field.  When
    a facebook field is absent the [KeyError] lists the absent facebook
    fields, in the order of line 24, whatever the adword fields are; only
    when all facebook fields are there does it list the absent adword
    fields. *)
Theorem key_error_names_first_selection (df : DataFrame) (start_date end_date : Z)
    (platform_options : list string) :
  ((exists n, n ∈ facebook_fields /\ has_col df n = false) ->
   dashboard df start_date end_date platform_options
   = Raise (KeyError (List.filter (fun n => negb (has_col df n)) facebook_fields)))
  /\ ((forall n, n ∈ facebook_fields -> has_col df n = true) ->
      (exists n, n ∈ adword_fields /\ has_col df n = false) ->
      dashboard df start_date end_date platform_options
      = Raise (KeyError (List.filter (fun n => negb (has_col df n)) adword_fields)))
  /\ forall names n,
       n ∈ List.filter (fun n => negb (has_col df n)) names
       <-> n ∈ names /\ has_col df n = false.
Proof.
  split; [|split].
  - intros H. apply lookup_all_None in H.
    unfold dashboard. now rewrite (reshape_raise_facebook _ H).
  - intros Hf Ha. apply lookup_all_None in Ha.
    destruct (lookup_all df facebook_fields) as [fbs|] eqn:E.
    + unfold dashboard. now rewrite (reshape_raise_adwords _ _ E Ha).
    + apply lookup_all_None in E as (n & Hn & Hc). rewrite (Hf n Hn) in Hc.
      discriminate Hc.
  - intros names n. apply filter_missing.
Qed.

End KeyErrorOrder.

Lemma length_keep_le {A} mask (l : list A) : (length (keep mask l) <= length l)%nat.
Proof.
  revert l. induction mask as [|b mask IH]; intros [|x l]; cbn; try lia.
  specialize (IH l). destruct b; cbn; lia.
Qed.

Lemma length_keep_shape {A B} mask (l : list A) (k : list B) :
  length l = length k -> length (keep mask l) = length (keep mask k).
Proof.
  revert l k. induction mask as [|b mask IH]; intros [|x l] [|y k] H; cbn; try done.
  injection H as H. destruct b; cbn; rewrite (IH l k H); done.
Qed.

Lemma keep_elem_of {A} mask (l : list A) x :
  x ∈ keep mask l -> exists i, mask !! i = Some true /\ l !! i = Some x.
Proof.
  revert l. induction mask as [|b mask IH]; intros [|y l]; cbn; try (intros H; inversion H; fail).
  destruct b.
  - intros [->|H]%elem_of_cons; [by exists 0%nat|].
    destruct (IH l H) as (i & ? & ?). by exists (S i).
  - intros H. destruct (IH l H) as (i & ? & ?). by exists (S i).
Qed.

Lemma keep_all {A} mask (l : list A) :
  (length l <= length mask)%nat -> Forall (fun b => b = true) mask -> keep mask l = l.
Proof.
  revert l. induction mask as [|b mask IH]; intros [|x l] Hl Hm; cbn in *; try done; try lia.
  inversion Hm; subst. rewrite IH; [done | lia | done].
Qed.

Lemma keep_none {A} mask (l : list A) :
  Forall (fun b => b = false) mask -> keep mask l = [].
Proof.
  revert l. induction mask as [|b mask IH]; intros [|x l] Hm; cbn; try done.
  inversion Hm; subst. now apply IH.
Qed.

Lemma series_keep_all mask s :
  (length (cells s) <= length mask)%nat -> Forall (fun b => b = true) mask ->
  series_keep mask s = s.
Proof.
  intros Hl Hm. destruct s; cbn in *; rewrite ?length_fmap in Hl; f_equal;
    now apply keep_all.
Qed.

Lemma dtype_series_keep mask s : dtype_of (series_keep mask s) = dtype_of s.
Proof. now destruct s. Qed.

(** X3: the filter keeps the shape of the frame: every column still has the
    length of the index, no row is added, and the labels and dtypes of the
    columns are those of [df_long]. *)
Theorem filter_keeps_frame_shape (df_long filtered : DataFrame)
    (dates : list (option Z)) (start_date end_date : Z) (platform_options : list string) :
  wf_frame df_long ->
  filtered_data df_long dates start_date end_date platform_options = Ok filtered ->
  wf_frame filtered
  /\ (nrows filtered <= nrows df_long)%nat
  /\ fst <$> columns filtered = fst <$> columns df_long
  /\ forall name, column_dtype filtered name = column_dtype df_long name.
Proof.
  intros Hwf H. unfold filtered_data in H.
  destruct (getitem df_long "platform") as [p|]; [|discriminate]. cbn in H.
  injection H as <-. set (mask := and_mask _ _). split; [|split; [|split]].
  - unfold wf_frame, loc in *. cbn. apply Forall_fmap. 
    eapply Forall_impl; [exact Hwf|]. intros [n s] Hs. cbn in *.
    rewrite cells_series_keep. apply length_keep_shape. now rewrite length_replicate.
  - unfold loc. cbn. etransitivity; [apply length_keep_le|]. now rewrite length_replicate.
  - unfold loc. cbn. rewrite <- list_fmap_compose. now apply list_fmap_ext.
  - intros name. unfold column_dtype, loc. cbn. rewrite assoc_fmap.
    destruct (assoc name (columns df_long)); cbn; [|done]. now rewrite dtype_series_keep.
Qed.

Lemma loc_all df mask :
  wf_frame df -> (nrows df <= length mask)%nat -> Forall (fun b => b = true) mask ->
  loc df mask = df.
Proof.
  intros Hwf Hl Hm. destruct df as [n cols]. unfold loc, wf_frame in *. cbn in *. f_equal.
  - rewrite keep_all; [apply length_replicate | now rewrite length_replicate | done].
  - induction cols as [|[name s] cols IH]; [done|]. inversion Hwf; subst. cbn in *.
    rewrite series_keep_all; [|lia|done]. f_equal. now apply IH.
Qed.

Lemma filtered_data_covering (df_long : DataFrame) (platform : Series)
    (dates : list (option Z)) (start_date end_date : Z) (platform_options : list string) :
  wf_frame df_long ->
  getitem df_long "platform" = Ok platform ->
  length dates = nrows df_long ->
  covered start_date end_date platform_options dates platform ->
  filtered_data df_long dates start_date end_date platform_options = Ok df_long.
Proof.
  intros Hwf Ep Hl [Hd Hp]. unfold filtered_data. rewrite Ep. cbn. f_equal.
  assert (Lp : length (cells platform) = nrows df_long).
  { unfold getitem in Ep. destruct (assoc "platform" (columns df_long)) eqn:E; [|done].
    injection Ep as ->. eapply assoc_wf; eauto. }
  apply loc_all; [done|..].
  - unfold and_mask, ge_mask, le_mask, isin.
    rewrite !length_zip_with, !length_fmap. lia.
  - unfold and_mask, ge_mask, le_mask, isin.
    revert Hd Hp. generalize (cells platform). clear.
    induction dates as [|d dates IH]; intros [|c pc] Hd Hp; cbn; try constructor.
    + inversion Hd as [|? ? (t & -> & Hs & He) Hd']; subst.
      inversion Hp as [|? ? (k & -> & Hk) Hp']; subst. cbn.
      rewrite (proj2 (Z.leb_le _ _) Hs), (proj2 (Z.leb_le _ _) He).
      now rewrite bool_decide_eq_true_2.
    + inversion Hd; inversion Hp; subst. now apply IH.
Qed.

Lemma elem_of_unique_from seen l x :
  x ∈ unique_from seen l <-> x ∈ l /\ x ∉ seen.
Proof.
  revert seen. induction l as [|y l IH]; intros seen; cbn.
  - split; [intros H; inversion H | intros [H _]; inversion H].
  - case_bool_decide as Hy.
    + rewrite IH. split.
      * intros [? ?]. split; [by right | done].
      * intros [[->|?]%elem_of_cons ?]; [done | done].
    + rewrite elem_of_cons, IH. split.
      * intros [->|[? Hn]]; [split; [left | done]|].
        split; [by right|]. intros ?. apply Hn. by right.
      * intros [[->|?]%elem_of_cons Hn]; [by left|].
        destruct (decide (x = y)) as [->|Hne]; [by left|]. right. split; [done|].
        intros [->|?]%elem_of_cons; done.
Qed.

Lemma elem_of_unique s k : k ∈ unique s <-> CStr k ∈ cells s.
Proof.
  unfold unique. rewrite elem_of_unique_from, list_elem_of_omap. split.
  - intros [(c & Hc & E) _]. destruct c; cbn in E; simplify_eq. exact Hc.
  - intros H. split; [by exists (CStr k) | intros X; inversion X].
Qed.

Lemma dates_min_None dates t : dates_min dates = None -> Some t ∉ dates.
Proof.
  induction dates as [|d dates IH]; [intros _ H; inversion H|].
  unfold dates_min. cbn [foldr]. fold (dates_min dates).
  destruct d as [u|]; [destruct (dates_min dates); discriminate|].
  intros E [[=]|H]%elem_of_cons. now apply IH.
Qed.

Lemma dates_max_None dates t : dates_max dates = None -> Some t ∉ dates.
Proof.
  induction dates as [|d dates IH]; [intros _ H; inversion H|].
  unfold dates_max. cbn [foldr]. fold (dates_max dates).
  destruct d as [u|]; [destruct (dates_max dates); discriminate|].
  intros E [[=]|H]%elem_of_cons. now apply IH.
Qed.

Lemma dates_min_spec dates lo :
  dates_min dates = Some lo ->
  Some lo ∈ dates /\ forall t, Some t ∈ dates -> lo <= t.
Proof.
  revert lo. induction dates as [|d dates IH]; intros lo; [discriminate|].
  unfold dates_min. cbn [foldr]. fold (dates_min dates).
  destruct d as [t|].
  - destruct (dates_min dates) as [m|] eqn:E.
    + intros [= <-]. destruct (IH m eq_refl) as [Hin Hle]. split.
      * destruct (Z.min_spec t m) as [[_ ->]|[_ ->]]; [left | by right].
      * intros t' [[= ->]|H]%elem_of_cons; [lia|]. specialize (Hle _ H). lia.
    + intros [= <-]. split; [left|].
      intros t' [[= ->]|H]%elem_of_cons; [lia|]. exfalso.
      exact (dates_min_None _ _ E H).
  - intros H. destruct (IH lo H) as [Hin Hle]. split; [by right|].
    intros t' [[=]|Ht]%elem_of_cons. auto.
Qed.

Lemma dates_max_spec dates hi :
  dates_max dates = Some hi ->
  Some hi ∈ dates /\ forall t, Some t ∈ dates -> t <= hi.
Proof.
  revert hi. induction dates as [|d dates IH]; intros hi; [discriminate|].
  unfold dates_max. cbn [foldr]. fold (dates_max dates).
  destruct d as [t|].
  - destruct (dates_max dates) as [m|] eqn:E.
    + intros [= <-]. destruct (IH m eq_refl) as [Hin Hle]. split.
      * destruct (Z.max_spec t m) as [[_ ->]|[_ ->]]; [by right | left].
      * intros t' [[= ->]|H]%elem_of_cons; [lia|]. specialize (Hle _ H). lia.
    + intros [= <-]. split; [left|].
      intros t' [[= ->]|H]%elem_of_cons; [lia|]. exfalso.
      exact (dates_max_None _ _ E H).
  - intros H. destruct (IH hi H) as [Hin Hle]. split; [by right|].
    intros t' [[=]|Ht]%elem_of_cons. auto.
Qed.

Lemma whole_day_round_trip t :
  t mod ns_per_day = 0 -> datetime_of_date (date_input t) = t.
Proof.
  unfold datetime_of_date, date_input, ns_per_day. intros H.
  pose proof (Z.div_mod t 86400000000000 ltac:(lia)). lia.
Qed.

Lemma date_input_floor t :
  datetime_of_date (date_input t) <= t < datetime_of_date (date_input t) + ns_per_day.
Proof.
  unfold datetime_of_date, date_input, ns_per_day.
  pose proof (Z.div_mod t 86400000000000 ltac:(lia)).
  pose proof (Z.mod_pos_bound t 86400000000000 ltac:(lia)). lia.
Qed.

(** X4: a filter whose date range holds every date and whose selection
    holds every platform of the column returns [df_long] itself. *)
Theorem covering_filter_is_identity (df_long : DataFrame) (platform : Series)
    (dates : list (option Z)) (start_date end_date : Z) (platform_options : list string) :
  wf_frame df_long ->
  getitem df_long "platform" = Ok platform ->
  length dates = nrows df_long ->
  covered start_date end_date platform_options dates platform ->
  filtered_data df_long dates start_date end_date platform_options = Ok df_long.
Proof. apply filtered_data_covering. Qed.

(** X5: before the user touches the widgets, the filter keeps all of a
    non-empty [df_long] whose dates are whole days (midnights, none
    missing) and whose platforms are strings. *)
Theorem default_filter_keeps_whole_days (df_long : DataFrame) (platform : Series)
    (dates : list (option Z)) :
  wf_frame df_long ->
  getitem df_long "platform" = Ok platform ->
  length dates = nrows df_long ->
  (0 < nrows df_long)%nat ->
  Forall (fun d => exists t, d = Some t /\ t mod ns_per_day = 0) dates ->
  Forall (fun c => exists k, c = CStr k) (cells platform) ->
  exists start_date end_date platform_options,
    default_filter dates platform = Some (start_date, end_date, platform_options)
    /\ filtered_data df_long dates start_date end_date platform_options = Ok df_long.
Proof.
  intros Hwf Ep Hl Hn Hd Hp. unfold default_filter.
  destruct (dates_min dates) as [lo|] eqn:Elo.
  2:{ destruct dates as [|d dates]; [cbn in Hl; lia|].
      inversion Hd as [|? ? (t & -> & _) _]; subst.
      exfalso. apply (dates_min_None _ t Elo). left. }
  destruct (dates_max dates) as [hi|] eqn:Ehi.
  2:{ destruct dates as [|d dates]; [cbn in Hl; lia|].
      inversion Hd as [|? ? (t & -> & _) _]; subst.
      exfalso. apply (dates_max_None _ t Ehi). left. }
  destruct (dates_min_spec _ _ Elo) as [Ilo Hlo].
  destruct (dates_max_spec _ _ Ehi) as [Ihi Hhi].
  rewrite Forall_forall in Hd.
  destruct (Hd _ Ilo) as (? & [= <-] & Mlo). destruct (Hd _ Ihi) as (? & [= <-] & Mhi).
  cbn. rewrite (whole_day_round_trip _ Mlo), (whole_day_round_trip _ Mhi).
  eexists _, _, _. split; [reflexivity|].
  apply (filtered_data_covering _ platform); try done. split.
  - apply Forall_forall. intros d Hin. destruct (Hd _ Hin) as (t & -> & _).
    exists t. split; [done|]. split; [apply Hlo | apply Hhi]; done.
  - rewrite Forall_forall in Hp. apply Forall_forall. intros c Hin.
    destruct (Hp _ Hin) as (k & ->). exists k. split; [done|]. now apply elem_of_unique.
Qed.

(** X6: the default end date is the midnight that starts the last day, so
    when the latest timestamp carries a time of day, the rows that hold it
    fail the test of the filter. *)
Theorem default_end_drops_later_rows (dates : list (option Z)) (platform : Series)
    (start_date end_date : Z) (platform_options : list string) (hi : Z) (c : cell) :
  default_filter dates platform = Some (start_date, end_date, platform_options) ->
  dates_max dates = Some hi ->
  hi mod ns_per_day <> 0 ->
  end_date < hi /\ retained start_date end_date platform_options (Some hi) c = false.
Proof.
  unfold default_filter. intros H Ehi Hm. rewrite Ehi in H.
  destruct (dates_min dates) as [lo|]; [|discriminate]. cbn in H. injection H as <- <- <-.
  assert (L : datetime_of_date (date_input hi) < hi).
  { pose proof (date_input_floor hi) as [B _].
    destruct (Z.eq_dec (datetime_of_date (date_input hi)) hi) as [E|]; [|lia].
    exfalso. apply Hm. rewrite <- E. unfold datetime_of_date. apply Z.mod_mul.
    unfold ns_per_day. lia. }
  split; [exact L|]. unfold retained. destruct c; try reflexivity.
  rewrite (proj2 (Z.leb_gt _ _) L). now rewrite andb_false_r.
Qed.

(** ** Marks, NaN and rounding at the display *)

Lemma string_app_inv_head (a x y : string) : a +:+ x = a +:+ y -> x = y.
Proof. induction a as [|c a IH]; cbn; [done|]. intros [= H]. auto. Qed.

Lemma fb_best_marked a b : fb_best a b <> no_best a b.
Proof. unfold fb_best, no_best. cbn. discriminate. Qed.

Lemma aw_best_marked a b : aw_best a b <> no_best a b.
Proof.
  unfold aw_best, no_best. cbn. intros [= H]. apply (string_app_inv_head a) in H.
  cbn in H. discriminate H.
Qed.

Lemma string_compare_eq (a b : string) : String.compare a b = Eq <-> a = b.
Proof.
  split; [apply String.compare_eq_iff|]. intros ->.
  pose proof (String.compare_antisym b b) as A.
  destruct (String.compare b b); [reflexivity | discriminate A | discriminate A].
Qed.

Lemma fb_best_not_aw_best a b : fb_best a b <> aw_best a b.
Proof. unfold fb_best, aw_best. cbn. discriminate. Qed.

Lemma highlight_metric_lower (a b : string) :
  highlight_metric a b "lower_better" =
  match String.compare a b with
  | Lt => fb_best a b
  | _ => aw_best a b
  end.
Proof.
  unfold highlight_metric. cbn.
  pose proof (str_lt_compare a b) as L.
  destruct (String.compare a b), (str_lt a b);
    try reflexivity; intuition congruence.
Qed.

(** X12: which pair is marked, by the order of the two strings.
    Higher-is-better marks Facebook when its string sorts after the AdWords
    one, AdWords when it sorts before, and nothing exactly when the two
    strings are equal.  Lower-is-better marks Facebook exactly when its
    string sorts before, and AdWords in every other case, the tie included:
    it never leaves the pair unmarked.  Any other [metric_type] marks
    nothing.  The three shapes are distinct strings. *)
Theorem highlight_metric_marks (fb_val aw_val : string) :
  (highlight_metric fb_val aw_val "higher_better" = no_best fb_val aw_val
   <-> fb_val = aw_val)
  /\ highlight_metric fb_val aw_val "lower_better" <> no_best fb_val aw_val
  /\ (highlight_metric fb_val aw_val "lower_better" = fb_best fb_val aw_val
      <-> String.compare fb_val aw_val = Lt)
  /\ (forall metric_type,
       metric_type <> "higher_better" -> metric_type <> "lower_better" ->
       highlight_metric fb_val aw_val metric_type = no_best fb_val aw_val)
  /\ highlight_metric fb_val aw_val "higher_better"
     = match String.compare fb_val aw_val with
       | Gt => fb_best fb_val aw_val
       | Lt => aw_best fb_val aw_val
       | Eq => no_best fb_val aw_val
       end
  /\ highlight_metric fb_val aw_val "lower_better"
     = match String.compare fb_val aw_val with
       | Lt => fb_best fb_val aw_val
       | Eq | Gt => aw_best fb_val aw_val
       end
  /\ (highlight_metric fb_val aw_val "lower_better" = aw_best fb_val aw_val
      <-> String.compare fb_val aw_val <> Lt)
  /\ (String.compare fb_val aw_val = Eq <-> fb_val = aw_val)
  /\ fb_best fb_val aw_val <> aw_best fb_val aw_val
  /\ fb_best fb_val aw_val <> no_best fb_val aw_val
  /\ aw_best fb_val aw_val <> no_best fb_val aw_val.
Proof.
  pose proof (fb_best_not_aw_best fb_val aw_val) as Dfa.
  pose proof (fb_best_marked fb_val aw_val) as Dfn.
  pose proof (aw_best_marked fb_val aw_val) as Dan.
  pose proof (string_compare_eq fb_val aw_val) as Heq.
  pose proof (highlight_metric_higher fb_val aw_val) as Hh.
  pose proof (highlight_metric_lower fb_val aw_val) as Hl.
  split; [|split; [|split; [|split; [|split; [|split; [|split]]]]]].
  - rewrite Hh. destruct (String.compare fb_val aw_val) eqn:E.
    + split; [intros _; now apply (proj1 Heq) | reflexivity].
    + split; [intros H; now apply Dan in H|].
      intros H. apply (proj2 Heq) in H. discriminate H.
    + split; [intros H; now apply Dfn in H|].
      intros H. apply (proj2 Heq) in H. discriminate H.
  - rewrite Hl. destruct (String.compare fb_val aw_val); assumption.
  - rewrite Hl. destruct (String.compare fb_val aw_val).
    + split; [intros H; symmetry in H; now apply Dfa in H | discriminate].
    + split; reflexivity.
    + split; [intros H; symmetry in H; now apply Dfa in H | discriminate].
  - intros mt H1 H2. unfold highlight_metric.
    rewrite (proj2 (String.eqb_neq _ _) H1), (proj2 (String.eqb_neq _ _) H2). done.
  - exact Hh.
  - exact Hl.
  - rewrite Hl. destruct (String.compare fb_val aw_val).
    + split; [discriminate | reflexivity].
    + split; [intros H; now apply Dfa in H | intros H; now destruct H].
    + split; [discriminate | reflexivity].
  - split; [exact Heq|]. split; [exact Dfa|]. split; [exact Dfn | exact Dan].
Qed.

(** X13: when the mean conversion rate of either platform is NaN (a group
    with no valid value), the comparison of line 194 is false and the best
    platform is "AdWords". *)
Theorem best_platform_nan (avg : gmap string pyval) :
  avg !! "Facebook" = Some (VFloat f64_nan) \/ avg !! "AdWords" = Some (VFloat f64_nan) ->
  best_platform avg = "AdWords".
Proof.
  unfold best_platform, get, py_gt. intros [-> | ->]; cbn.
  - destruct (default (VInt 0) (avg !! "AdWords")) as [z|x]; cbn;
      unfold f64_ltb, SFltb, SFcompare.
    + now destruct (f64_of_Z z).
    + now destruct x.
  - destruct (default (VInt 0) (avg !! "Facebook")); reflexivity.
Qed.

Section NearAMillion.
Context `{K : Kernels}.

(** X14: a total from 999,950 to 999,999 is shown as "1000.0K": it is
    below the million that switches to "M" and rounds up to a thousand K. *)
Theorem format_num_just_below_a_million (n : Z) :
  999950 <= n < 1000000 -> format_num (VInt n) = "1000.0K".
Proof.
  intros H.
  assert (F : forallb (fun k => String.eqb (format_num (VInt (999950 + Z.of_nat k)))
                                  "1000.0K") (seq 0 50) = true)
    by (vm_compute; reflexivity).
  rewrite forallb_forall in F.
  specialize (F (Z.to_nat (n - 999950))).
  rewrite Z2Nat.id in F by lia. replace (999950 + (n - 999950)) with n in F by lia.
  apply String.eqb_eq, F, in_seq. lia.
Qed.

End NearAMillion.

(** ** Totals by platform *)


Lemma wrap64_add (x y : Z) : wrap64 (wrap64 x + wrap64 y) = wrap64 (x + y).
Proof.
  unfold wrap64. f_equal.
  replace ((x + 2 ^ 63) mod 2 ^ 64 - 2 ^ 63 + ((y + 2 ^ 63) mod 2 ^ 64 - 2 ^ 63) + 2 ^ 63)
    with ((x + 2 ^ 63) mod 2 ^ 64 + ((y + 2 ^ 63) mod 2 ^ 64 - 2 ^ 63)) by lia.
  rewrite Zplus_mod_idemp_l.
  replace (x + 2 ^ 63 + ((y + 2 ^ 63) mod 2 ^ 64 - 2 ^ 63))
    with ((y + 2 ^ 63) mod 2 ^ 64 + x) by lia.
  rewrite Zplus_mod_idemp_l. f_equal. lia.
Qed.

Lemma wrap64_range (z : Z) : - 2 ^ 63 <= wrap64 z < 2 ^ 63.
Proof. unfold wrap64. pose proof (Z.mod_pos_bound (z + 2 ^ 63) (2 ^ 64) ltac:(lia)). lia. Qed.

Lemma wrap64_small (z : Z) : - 2 ^ 63 <= z < 2 ^ 63 -> wrap64 z = z.
Proof. intros H. unfold wrap64. rewrite Z.mod_small; lia. Qed.

Lemma key_mask_absent keys k :
  CStr k ∉ cells keys -> Forall (fun b => b = false) (key_mask keys k).
Proof.
  unfold key_mask. induction (cells keys) as [|c l IH]; intros H; cbn; constructor.
  - apply bool_decide_eq_false_2. intros E. apply H.
    destruct c; cbn in E; simplify_eq. left.
  - apply IH. intros ?. apply H. by right.
Qed.

Lemma sum_two_groups (a b : string) (keys : list cell) (l : list Z) :
  a <> b ->
  Forall (fun c => c = CStr a \/ c = CStr b) keys ->
  length keys = length l ->
  foldr Z.add 0 (keep ((fun c => bool_decide (str_key c = Some a)) <$> keys) l)
  + foldr Z.add 0 (keep ((fun c => bool_decide (str_key c = Some b)) <$> keys) l)
  = foldr Z.add 0 l.
Proof.
  intros Hab. revert l. induction keys as [|c keys IH]; intros [|x l] Hk Hl;
    cbn in *; try done.
  inversion Hk as [|? ? Hc Hk']; subst. injection Hl as Hl.
  specialize (IH l Hk' Hl).
  destruct Hc as [-> | ->]; cbn.
  - rewrite bool_decide_eq_true_2 by done.
    rewrite (bool_decide_eq_false_2 (Some a = Some b)) by congruence. cbn. lia.
  - rewrite (bool_decide_eq_false_2 (Some b = Some a)) by congruence.
    rewrite bool_decide_eq_true_2 by done. cbn. lia.
Qed.

Section GroupTotals.
Context `{K : Kernels}.

Lemma groupby_agg_present df by_ col agg m keys k :
  groupby_agg df by_ col agg = Ok m ->
  getitem df by_ = Ok keys ->
  is_Some (m !! k) -> CStr k ∈ cells keys.
Proof.
  unfold groupby_agg. intros H E Hk. rewrite E in H. cbn in H.
  destruct (getitem df col) as [s|]; [|discriminate]. cbn in H.
  destruct (mapM _ (group_keys keys)) as [rows|] eqn:Em; [|discriminate].
  cbn in H. injection H as <-.
  destruct (decide (k ∈ group_keys keys)) as [Hin|Hout].
  - now apply elem_of_group_keys.
  - rewrite (proj2 (mapM_pair_lookup _ _ _ k Em) Hout) in Hk. now destruct Hk.
Qed.

Lemma group_total_int df col m keys l k :
  group_total df col = Ok m ->
  getitem df "platform" = Ok keys ->
  getitem df col = Ok (Int64 l) ->
  get m k = VInt (wrap64 (foldr Z.add 0 (keep (key_mask keys k) l))).
Proof.
  intros H Ek El. unfold get.
  destruct (m !! k) as [v|] eqn:Ev.
  - assert (Hin : CStr k ∈ cells keys) by (eapply groupby_agg_present; eauto).
    destruct (groupby_agg_lookup _ _ _ _ _ _ _ k H Ek El) as [H1 _].
    destruct (H1 Hin) as (v' & Hv' & Hm). cbn in Hv'. simplify_eq. done.
  - destruct (groupby_agg_lookup _ _ _ _ _ _ _ k H Ek El) as [H1 H2]. cbn.
    assert (Hout : CStr k ∉ cells keys).
    { intros Hin. destruct (H1 Hin) as (v' & _ & Hm). congruence. }
    rewrite (keep_none _ _ (key_mask_absent _ _ Hout)). reflexivity.
Qed.

(** X9: the totals of the two platforms add up.  For an int64 column of
    a frame whose platform column holds "Facebook" and "AdWords" only,
    the sum of the whole column is the (int64) sum of the two values
    [.get] returns, the default 0 of an absent platform included. *)
Theorem platform_totals_add_up (df : DataFrame) (col : string)
    (m : gmap string pyval) (keys : Series) (l : list Z) :
  group_total df col = Ok m ->
  getitem df "platform" = Ok keys ->
  getitem df col = Ok (Int64 l) ->
  length (cells keys) = length l ->
  Forall (fun c => c = CStr "Facebook" \/ c = CStr "AdWords") (cells keys) ->
  exists f a,
    get m "Facebook" = VInt f /\ get m "AdWords" = VInt a
    /\ series_sum (Int64 l) = Ok (VInt (wrap64 (f + a))).
Proof.
  intros H Ek El Hl Hk.
  rewrite (group_total_int _ _ _ _ _ "Facebook" H Ek El).
  rewrite (group_total_int _ _ _ _ _ "AdWords" H Ek El).
  eexists _, _. split; [reflexivity|]. split; [reflexivity|].
  cbn. rewrite wrap64_add. unfold key_mask.
  now rewrite (sum_two_groups "Facebook" "AdWords" (cells keys) l).
Qed.

End GroupTotals.

(** ** Selected platforms and inverted ranges *)

Section SelectedKeys.
Context `{K : Kernels}.

Lemma filtered_data_inv df_long dates s e P filtered :
  filtered_data df_long dates s e P = Ok filtered ->
  exists p,
    getitem df_long "platform" = Ok p
    /\ filtered = loc df_long (and_mask (and_mask (ge_mask dates s) (le_mask dates e))
                                        (isin p P))
    /\ getitem filtered "platform"
       = Ok (series_keep (and_mask (and_mask (ge_mask dates s) (le_mask dates e))
                                   (isin p P)) p).
Proof.
  unfold filtered_data. intros H.
  destruct (getitem df_long "platform") as [p|] eqn:E; [|discriminate]. cbn in H.
  injection H as <-. exists p. split; [done|]. split; [done|]. now apply getitem_loc.
Qed.

Lemma kept_platform_selected dates s e P p k :
  CStr k ∈ cells (series_keep (and_mask (and_mask (ge_mask dates s) (le_mask dates e))
                                         (isin p P)) p) ->
  k ∈ P.
Proof.
  rewrite cells_series_keep. intros (i & Hm & Hc)%keep_elem_of.
  unfold and_mask in Hm. rewrite lookup_zip_with in Hm.
  destruct (zip_with andb (ge_mask dates s) (le_mask dates e) !! i) as [b1|]; [|done].
  cbn in Hm. unfold isin in Hm. rewrite list_lookup_fmap, Hc in Hm. cbn in Hm.
  injection Hm as Hm. apply andb_true_iff in Hm as [_ Hm].
  now apply bool_decide_eq_true in Hm.
Qed.

Lemma group_avg_present df col m keys k :
  group_avg df col = Ok m -> getitem df "platform" = Ok keys ->
  is_Some (m !! k) -> CStr k ∈ cells keys.
Proof.
  unfold group_avg. intros H E Hk.
  destruct (groupby_agg df "platform" col series_mean) as [m'|] eqn:Em; [|discriminate].
  cbn in H. injection H as <-. rewrite lookup_fmap in Hk.
  apply (groupby_agg_present _ _ _ _ _ _ _ Em E). 
  destruct (m' !! k); [eauto | now destruct Hk].
Qed.

(** X7: a platform that has an entry in one of the six series of step 6 is
    one of the selected platform options. *)
Theorem grouped_keys_are_selected (df_long filtered : DataFrame)
    (dates : list (option Z)) (start_date end_date : Z) (platform_options : list string)
    (ins : Insights) (k : string) :
  filtered_data df_long dates start_date end_date platform_options = Ok filtered ->
  insights filtered = Ok ins ->
  is_Some (total_views ins !! k) \/ is_Some (total_clicks ins !! k)
  \/ is_Some (total_conversions ins !! k) \/ is_Some (avg_ctr ins !! k)
  \/ is_Some (avg_conversion_rate ins !! k) \/ is_Some (avg_cost_per_click ins !! k) ->
  k ∈ platform_options.
Proof.
  intros (p & Ep & _ & Ef)%filtered_data_inv Hi Hk.
  destruct (insights_inv _ _ Hi) as (Hv & Hc & Hn & Ht & Hr & Hcp).
  apply (kept_platform_selected dates start_date end_date platform_options p).
  destruct Hk as [Hk|[Hk|[Hk|[Hk|[Hk|Hk]]]]].
  - exact (groupby_agg_present _ _ _ _ _ _ _ Hv Ef Hk).
  - exact (groupby_agg_present _ _ _ _ _ _ _ Hc Ef Hk).
  - exact (groupby_agg_present _ _ _ _ _ _ _ Hn Ef Hk).
  - exact (group_avg_present _ _ _ _ _ Ht Ef Hk).
  - exact (group_avg_present _ _ _ _ _ Hr Ef Hk).
  - exact (group_avg_present _ _ _ _ _ Hcp Ef Hk).
Qed.

Lemma inverted_mask dates s e (m : list bool) :
  e < s -> Forall (fun b => b = false)
             (and_mask (and_mask (ge_mask dates s) (le_mask dates e)) m).
Proof.
  intros H. unfold and_mask, ge_mask, le_mask. revert m.
  induction dates as [|d dates IH]; intros [|b m]; cbn; constructor; auto.
  destruct d as [t|]; cbn; [|done].
  destruct (Z.leb_spec s t), (Z.leb_spec t e); cbn; try done. lia.
Qed.

Lemma groupby_agg_empty_inv df by_ col agg m keys :
  groupby_agg df by_ col agg = Ok m -> getitem df by_ = Ok keys ->
  cells keys = [] -> m = ∅.
Proof.
  intros H E Hk. apply map_eq. intros k. rewrite lookup_empty.
  apply (groupby_agg_absent _ _ _ _ _ _ _ H E). rewrite Hk. intros X. inversion X.
Qed.

Lemma group_avg_empty_inv df col m keys :
  group_avg df col = Ok m -> getitem df "platform" = Ok keys ->
  cells keys = [] -> m = ∅.
Proof.
  unfold group_avg. intros H E Hk.
  destruct (groupby_agg df "platform" col series_mean) as [m'|] eqn:Em; [|discriminate].
  cbn in H. injection H as <-.
  rewrite (groupby_agg_empty_inv _ _ _ _ _ _ Em E Hk). apply fmap_empty.
Qed.

Lemma dashboard_inv df s e P page :
  dashboard df s e P = Ok page ->
  exists dates,
    reshape df = Ok (page_long page)
    /\ platform_summary (page_long page) = Ok (page_summary page)
    /\ convert_dates (page_long page) = Ok dates
    /\ filtered_data (page_long page) dates s e P = Ok (page_filtered page)
    /\ insights (page_filtered page) = Ok (page_insights page)
    /\ page_display page = display (page_insights page).
Proof.
  unfold dashboard. intros H.
  destruct (reshape df) as [long|] eqn:Er; [|discriminate]. cbn [mbind result_bind] in H.
  destruct (platform_summary long) as [summary|] eqn:Es; [|discriminate]. cbn [mbind result_bind] in H.
  destruct (convert_dates long) as [dates|] eqn:Ec; [|discriminate]. cbn [mbind result_bind] in H.
  destruct (filtered_data long dates s e P) as [filtered|] eqn:Ef; [|discriminate].
  cbn [mbind result_bind] in H.
  destruct (insights filtered) as [ins|] eqn:Ei; [|discriminate].
  cbn [mbind result_bind] in H. injection H as <-. cbn. exists dates.
  repeat split; first [assumption | reflexivity].
Qed.

(** X8: with an end date before the start date the filtered data is
    empty: the six series are empty, every total and mean shows the default
    0, the Avg CPC pair marks AdWords and the best platform is "AdWords". *)
Theorem inverted_range_shows_nothing (df : DataFrame) (start_date end_date : Z)
    (platform_options : list string) (page : Page) :
  dashboard df start_date end_date platform_options = Ok page ->
  end_date < start_date ->
  nrows (page_filtered page) = 0%nat
  /\ page_insights page = nothing_selected
  /\ views_md (page_display page) = "**Views:** FB: 0 | AW: 0"
  /\ conv_rate_md (page_display page) = "**Avg Conv Rate:** FB: 0% | AW: 0%"
  /\ cpc_md (page_display page) = "**Avg CPC:** " +:+ aw_best "$0" "$0"
  /\ best (page_display page) = "AdWords".
Proof.
  intros (dates & _ & _ & _ & Hf & Hi & Hd)%dashboard_inv Hlt.
  apply filtered_data_inv in Hf as (p & Ep & Efl & Ef).
  pose proof (inverted_mask dates start_date end_date (isin p platform_options) Hlt) as Hm.
  assert (Ec : cells (series_keep
                        (and_mask (and_mask (ge_mask dates start_date)
                                            (le_mask dates end_date))
                                  (isin p platform_options)) p) = []).
  { rewrite cells_series_keep. now apply keep_none. }
  destruct (insights_inv _ _ Hi) as (Hv & Hc & Hn & Ht & Hr & Hcp).
  assert (Ei : page_insights page = nothing_selected).
  { destruct (page_insights page). cbn in *. unfold nothing_selected. f_equal.
    - exact (groupby_agg_empty_inv _ _ _ _ _ _ Hv Ef Ec).
    - exact (groupby_agg_empty_inv _ _ _ _ _ _ Hc Ef Ec).
    - exact (groupby_agg_empty_inv _ _ _ _ _ _ Hn Ef Ec).
    - exact (group_avg_empty_inv _ _ _ _ Ht Ef Ec).
    - exact (group_avg_empty_inv _ _ _ _ Hr Ef Ec).
    - exact (group_avg_empty_inv _ _ _ _ Hcp Ef Ec). }
  split; [|split; [exact Ei|]].
  - rewrite Efl. unfold loc. cbn. now rewrite keep_none.
  - rewrite Hd, Ei. repeat split.
Qed.

End SelectedKeys.

(** ** From the wide frame to the page *)

Lemma long_of_wf df fbs aws :
  wf_frame df ->
  lookup_all df facebook_fields = Some fbs ->
  lookup_all df adword_fields = Some aws ->
  wf_frame (long_of (nrows df) fbs aws).
Proof.
  intros Hwf Hf Ha.
  pose proof (lookup_all_length _ _ _ Hf) as Lf.
  pose proof (lookup_all_length _ _ _ Ha) as La.
  do 9 (destruct fbs as [|? fbs]; try discriminate Lf).
  do 9 (destruct aws as [|? aws]; try discriminate La).
  clear Lf La. unfold lookup_all, facebook_fields, adword_fields in Hf, Ha.
  cbn [mapM] in Hf, Ha. simplify_option_eq.
  repeat match goal with
         | E : assoc _ (columns df) = Some _ |- _ =>
             pose proof (assoc_wf _ _ _ Hwf E); revert E
         end.
  intros. unfold wf_frame, long_of. cbn.
  repeat constructor; cbn;
    rewrite ?length_cells_concat, ?length_app, ?length_replicate; lia.
Qed.

Section EndToEnd.
Context `{K : Kernels}.

(** X11: the summary table of a dataset with at least one record has a row
    for "Facebook", a row for "AdWords" and no other row. *)
Theorem summary_has_both_platforms (df long : DataFrame) (m : gmap string SummaryRow) :
  (0 < nrows df)%nat ->
  reshape df = Ok long ->
  platform_summary long = Ok m ->
  forall k, is_Some (m !! k) <-> k = "Facebook" \/ k = "AdWords".
Proof.
  intros Hn H Hm k. apply reshape_inv in H as (fbs & aws & Hf & Ha & ->).
  pose proof (lookup_all_length _ _ _ Hf) as Lf.
  pose proof (lookup_all_length _ _ _ Ha) as La.
  do 9 (destruct fbs as [|? fbs]; try discriminate Lf).
  do 9 (destruct aws as [|? aws]; try discriminate La).
  clear Lf La Hf Ha.
  set (n := nrows df) in *.
  set (keys := Object (replicate n (CStr "Facebook") ++ replicate n (CStr "AdWords"))).
  match type of Hm with platform_summary ?l = _ => set (long := l) in * end.
  assert (Ek : getitem long "platform" = Ok keys) by reflexivity.
  assert (Hkeys : CStr k ∈ cells keys <-> k = "Facebook" \/ k = "AdWords").
  { cbn. rewrite elem_of_app. split.
    - intros [[[= ->] _]%elem_of_replicate | [[= ->] _]%elem_of_replicate]; auto.
    - intros [-> | ->]; [left | right]; apply elem_of_replicate; split; (done || lia). }
  rewrite <- Hkeys. split.
  - intros Hk. unfold platform_summary in Hm. rewrite Ek in Hm.
    cbn [mbind result_bind] in Hm.
    destruct (mapM _ (group_keys keys)) as [rows|] eqn:Em; [|discriminate].
    cbn in Hm. injection Hm as <-.
    destruct (decide (k ∈ group_keys keys)) as [Hin|Hout].
    + now apply elem_of_group_keys.
    + rewrite (proj2 (mapM_pair_lookup _ _ _ k Em) Hout) in Hk. now destruct Hk.
  - intros Hin. destruct (platform_summary_lookup _ _ _ _ Hm Ek Hin) as (row & _ & ->).
    eauto.
Qed.

(** X10: from the wide frame to the page.  When the filter covers every
    date and both platforms, the filtered data is [df_long] and the total
    of views the page reads for a platform is the sum of that platform's
    views column of the wide frame (integer view counts). *)
Theorem unfiltered_totals_are_column_sums (df : DataFrame) (start_date end_date : Z)
    (platform_options : list string) (page : Page) (dates : list (option Z))
    (fv av : list Z) :
  dashboard df start_date end_date platform_options = Ok page ->
  wf_frame df ->
  getitem df "facebook_ad_views" = Ok (Int64 fv) ->
  getitem df "adword_ad_views" = Ok (Int64 av) ->
  convert_dates (page_long page) = Ok dates ->
  length dates = nrows (page_long page) ->
  Forall (fun d => exists t, d = Some t /\ start_date <= t /\ t <= end_date) dates ->
  "Facebook" ∈ platform_options -> "AdWords" ∈ platform_options ->
  page_filtered page = page_long page
  /\ Ok (get (total_views (page_insights page)) "Facebook") = series_sum (Int64 fv)
  /\ Ok (get (total_views (page_insights page)) "AdWords") = series_sum (Int64 av).
Proof.
  intros (dates' & Hr & _ & Hc & Hf & Hi & _)%dashboard_inv Hwf Efv Eav Hc' Hl Hd HF HA.
  rewrite Hc in Hc'. injection Hc' as ->.
  apply reshape_inv in Hr as (fbs & aws & Hfb & Haw & El).
  pose proof (long_of_wf _ _ _ Hwf Hfb Haw) as Hwl. rewrite <- El in Hwl.
  pose proof (lookup_all_length _ _ _ Hfb) as Lf.
  pose proof (lookup_all_length _ _ _ Haw) as La.
  do 9 (destruct fbs as [|? fbs]; try discriminate Lf).
  do 9 (destruct aws as [|? aws]; try discriminate La).
  clear Lf La. unfold lookup_all, facebook_fields, adword_fields in Hfb, Haw.
  cbn [mapM] in Hfb, Haw. simplify_option_eq.
  unfold getitem in Efv, Eav.
  repeat match goal with
         | E : assoc _ (columns df) = Some _ |- _ =>
             pose proof (assoc_wf _ _ _ Hwf E); rewrite E in *; clear E
         end.
  simplify_eq. cbn [cells] in *. rewrite length_fmap in *.
  set (n := nrows df) in *.
  set (keys := Object (replicate n (CStr "Facebook") ++ replicate n (CStr "AdWords"))).
  assert (Ek : getitem (page_long page) "platform" = Ok keys) by (rewrite El; reflexivity).
  assert (Ev : getitem (page_long page) "views" = Ok (Int64 (fv ++ av)))
    by (rewrite El; reflexivity).
  assert (Hcov : covered start_date end_date platform_options dates keys).
  { split; [exact Hd|]. cbn. apply Forall_app. split; apply Forall_replicate; eauto. }
  rewrite (filtered_data_covering _ keys _ _ _ _ Hwl Ek Hl Hcov) in Hf.
  injection Hf as Hf. split; [done|]. rewrite <- Hf in Hi.
  destruct (insights_inv _ _ Hi) as (Hv & _).
  rewrite (group_total_int _ _ _ _ _ "Facebook" Hv Ek Ev).
  rewrite (group_total_int _ _ _ _ _ "AdWords" Hv Ek Ev).
  unfold keys. rewrite !key_mask_two. cbn [bool_decide decide_rel].
  split; cbn.
  - now rewrite keep_first_half.
  - now rewrite keep_second_half.
Qed.

End EndToEnd.

(** ** The further properties on the sample data *)

Lemma sample_long_wf : wf_frame sample_long.
Proof. unfold wf_frame. repeat constructor. Qed.

(** X1 at the sample with a notes column. *)
Lemma reshape_reads_expected_only_witness :
  nrows sample_df_with_notes = nrows sample_df
  /\ reshape sample_df_with_notes = reshape sample_df.
Proof.
  split; [reflexivity|].
  apply (reshape_reads_expected_only sample_df sample_df_with_notes); [reflexivity|].
  intros n Hn. unfold expected_fields, facebook_fields, adword_fields in Hn.
  cbn in Hn. repeat (apply elem_of_cons in Hn as [->|Hn]); try reflexivity.
  inversion Hn.
Defined.

(** X2 at a frame that lacks the facebook and the adword metrics alike. *)
Lemma key_error_names_first_selection_witness :
  dashboard dates_only_df dec_22 dec_23 ["Facebook"; "AdWords"]
  = Raise (KeyError ["facebook_ad_views"; "facebook_ad_clicks";
                     "facebook_ad_conversions"; "facebook_cost_per_ad";
                     "facebook_ctr"; "facebook_conversion_rate";
                     "facebook_cost_per_click"]).
Proof.
  apply (proj1 (key_error_names_first_selection dates_only_df dec_22 dec_23
                  ["Facebook"; "AdWords"])).
  exists "facebook_ad_views". split; [|reflexivity].
  unfold facebook_fields. right. left.
Defined.

(** X3 at the sample filtered to Facebook. *)
Lemma filter_keeps_frame_shape_witness :
  wf_frame sample_long
  /\ filtered_data sample_long sample_dates dec_22 dec_23 ["Facebook"]
     = Ok sample_facebook_only
  /\ wf_frame sample_facebook_only
  /\ (nrows sample_facebook_only <= nrows sample_long)%nat.
Proof.
  destruct (filter_keeps_frame_shape sample_long sample_facebook_only sample_dates
              dec_22 dec_23 ["Facebook"] sample_long_wf eq_refl) as (H1 & H2 & _).
  split; [exact sample_long_wf|]. split; [reflexivity|]. split; [exact H1 | exact H2].
Defined.

Lemma sample_covered :
  covered dec_22 (dec_23 + 86400000000000) ["Facebook"; "AdWords"] sample_dates
    (Object [CStr "Facebook"; CStr "Facebook"; CStr "Facebook";
             CStr "AdWords"; CStr "AdWords"; CStr "AdWords"]).
Proof.
  split.
  - repeat constructor; eexists; (split; [reflexivity|]); unfold dec_22, dec_23; lia.
  - repeat constructor; eexists; (split; [reflexivity|]); set_solver.
Qed.

(** X4 at the sample, all three days and both platforms. *)
Lemma covering_filter_is_identity_witness :
  filtered_data sample_long sample_dates dec_22 (dec_23 + 86400000000000)
    ["Facebook"; "AdWords"] = Ok sample_long.
Proof.
  apply (covering_filter_is_identity sample_long _ sample_dates dec_22
           (dec_23 + 86400000000000) ["Facebook"; "AdWords"]
           sample_long_wf eq_refl eq_refl sample_covered).
Defined.

(** X5 at the sample: its dates are midnights. *)
Lemma default_filter_keeps_whole_days_witness :
  exists start_date end_date platform_options platform,
    getitem sample_long "platform" = Ok platform
    /\ default_filter sample_dates platform
       = Some (start_date, end_date, platform_options)
    /\ filtered_data sample_long sample_dates start_date end_date platform_options
       = Ok sample_long.
Proof.
  destruct (default_filter_keeps_whole_days sample_long _ sample_dates
              sample_long_wf eq_refl eq_refl) as (s & e & P & H1 & H2).
  - cbn. lia.
  - repeat constructor; eexists; (split; [reflexivity|]); vm_compute; reflexivity.
  - repeat constructor; eexists; reflexivity.
  - exists s, e, P. eexists. split; [reflexivity|]. split; [exact H1 | exact H2].
Defined.

(** X6 at two timestamps, the later one at 10:00 on 2021-12-23. *)
Lemma default_end_drops_later_rows_witness :
  default_filter late_dates (Object [CStr "Facebook"; CStr "AdWords"])
  = Some (dec_22, dec_23, ["Facebook"; "AdWords"])
  /\ dec_23 < dec_23 + 36000000000000
  /\ retained dec_22 dec_23 ["Facebook"; "AdWords"] (Some (dec_23 + 36000000000000))
       (CStr "AdWords") = false.
Proof.
  split; [vm_compute; reflexivity|].
  apply (default_end_drops_later_rows late_dates
           (Object [CStr "Facebook"; CStr "AdWords"]) dec_22 dec_23
           ["Facebook"; "AdWords"] (dec_23 + 36000000000000) (CStr "AdWords")).
  - vm_compute. reflexivity.
  - vm_compute. reflexivity.
  - vm_compute. discriminate.
Defined.

(** X7 at the sample filtered to Facebook. *)
Lemma grouped_keys_are_selected_witness :
  exists ins,
    insights sample_facebook_only = Ok ins
    /\ is_Some (total_views ins !! "Facebook")
    /\ "Facebook" ∈ ["Facebook"].
Proof.
  destruct (insights sample_facebook_only) as [ins|e] eqn:E;
    [|vm_compute in E; discriminate E].
  assert (H : is_Some (total_views ins !! "Facebook")).
  { destruct (total_views ins !! "Facebook") as [v|] eqn:Ev; [eauto|].
    exfalso. revert Ev. vm_compute in E. injection E as <-. vm_compute. discriminate. }
  exists ins. split; [reflexivity|]. split; [exact H|].
  apply (grouped_keys_are_selected sample_long sample_facebook_only sample_dates
           dec_22 dec_23 ["Facebook"] ins "Facebook" eq_refl E).
  left. exact H.
Defined.

(** X8 at the sample with the two dates exchanged. *)
Lemma inverted_range_shows_nothing_witness :
  dec_22 < dec_23
  /\ exists page,
       dashboard sample_df dec_23 dec_22 ["Facebook"; "AdWords"] = Ok page
       /\ nrows (page_filtered page) = 0%nat
       /\ best (page_display page) = "AdWords".
Proof.
  assert (L : dec_22 < dec_23) by (unfold dec_22, dec_23; lia).
  split; [exact L|].
  destruct (dashboard sample_df dec_23 dec_22 ["Facebook"; "AdWords"]) as [page|e] eqn:E;
    [|vm_compute in E; discriminate E].
  destruct (inverted_range_shows_nothing sample_df dec_23 dec_22
              ["Facebook"; "AdWords"] page E L) as (H1 & _ & _ & _ & _ & H6).
  exists page. split; [reflexivity|]. split; [exact H1 | exact H6].
Defined.

(** X9 at the views of the sample. *)
Lemma platform_totals_add_up_witness :
  exists m f a,
    group_total sample_long "views" = Ok m
    /\ get m "Facebook" = VInt f /\ get m "AdWords" = VInt a
    /\ series_sum (Int64 [1000000; 600000; 400000; 300000; 300000; 300000])
       = Ok (VInt (wrap64 (f + a))).
Proof.
  destruct (group_total sample_long "views") as [m|e] eqn:E;
    [|vm_compute in E; discriminate E].
  destruct (platform_totals_add_up sample_long "views" m _ _ E eq_refl eq_refl)
    as (f & a & H1 & H2 & H3).
  - reflexivity.
  - repeat (apply List.Forall_cons;
            [first [left; reflexivity | right; reflexivity]|]).
    apply List.Forall_nil.
  - exists m, f, a. split; [reflexivity|]. split; [exact H1|]. split; [exact H2 | exact H3].
Defined.

(** X10 at the sample, all three days and both platforms. *)
Lemma unfiltered_totals_are_column_sums_witness :
  exists page,
    dashboard sample_df dec_22 (dec_23 + 86400000000000) ["Facebook"; "AdWords"] = Ok page
    /\ page_filtered page = page_long page
    /\ Ok (get (total_views (page_insights page)) "Facebook")
       = series_sum (Int64 [1000000; 600000; 400000]).
Proof.
  destruct (dashboard sample_df dec_22 (dec_23 + 86400000000000) ["Facebook"; "AdWords"])
    as [page|e] eqn:E; [|vm_compute in E; discriminate E].
  assert (El : page_long page = sample_long).
  { revert E. vm_compute. intros [= <-]. reflexivity. }
  destruct (unfiltered_totals_are_column_sums sample_df dec_22 (dec_23 + 86400000000000)
              ["Facebook"; "AdWords"] page sample_dates
              [1000000; 600000; 400000] [300000; 300000; 300000] E)
    as (H1 & H2 & _).
  - unfold wf_frame. repeat constructor.
  - reflexivity.
  - reflexivity.
  - rewrite El. vm_compute. reflexivity.
  - rewrite El. reflexivity.
  - exact (proj1 sample_covered).
  - set_solver.
  - set_solver.
  - exists page. split; [reflexivity|]. split; [exact H1 | exact H2].
Defined.

(** X11 at the sample. *)
Lemma summary_has_both_platforms_witness :
  exists m,
    platform_summary sample_long = Ok m
    /\ (is_Some (m !! "Bing") <-> "Bing" = "Facebook" \/ "Bing" = "AdWords").
Proof.
  destruct (platform_summary sample_long) as [m|e] eqn:E;
    [|vm_compute in E; discriminate E].
  exists m. split; [reflexivity|].
  apply (summary_has_both_platforms sample_df sample_long m); [cbn; lia | reflexivity | exact E].
Defined.

(** X13 at a summary whose Facebook mean is NaN. *)
Lemma best_platform_nan_witness :
  best_platform (<["Facebook" := VFloat f64_nan]> (<["AdWords" := VFloat (f64_of_Z 5)]> ∅))
  = "AdWords".
Proof.
  apply best_platform_nan. left. vm_compute. reflexivity.
Defined.

(** X14 at 999,999. *)
Lemma format_num_just_below_a_million_witness :
  format_num (VInt 999999) = "1000.0K".
Proof. apply format_num_just_below_a_million. lia. Defined.

(** X12 at "$0.8" against "$0.5" and at two equal strings: lower is
    better marks AdWords in both cases, higher is better leaves the tie
    unmarked. *)
Lemma highlight_metric_marks_witness :
  highlight_metric "$0.8" "$0.5" "lower_better" = aw_best "$0.8" "$0.5"
  /\ highlight_metric "$0.5" "$0.5" "lower_better" = aw_best "$0.5" "$0.5"
  /\ highlight_metric "$0.5" "$0.8" "lower_better" = fb_best "$0.5" "$0.8"
  /\ highlight_metric "1.5K" "1.5K" "higher_better" = no_best "1.5K" "1.5K"
  /\ highlight_metric "$0.5" "$0.5" "lower_better" <> no_best "$0.5" "$0.5".
Proof.
  split; [|split; [|split; [|split]]].
  - exact (proj1 (proj2 (proj2 (proj2 (proj2 (proj2
             (highlight_metric_marks "$0.8" "$0.5"))))))).
  - exact (proj1 (proj2 (proj2 (proj2 (proj2 (proj2
             (highlight_metric_marks "$0.5" "$0.5"))))))).
  - exact (proj1 (proj2 (proj2 (proj2 (proj2 (proj2
             (highlight_metric_marks "$0.5" "$0.8"))))))).
  - apply (proj1 (highlight_metric_marks "1.5K" "1.5K")). reflexivity.
  - apply (proj1 (proj2 (highlight_metric_marks "$0.5" "$0.5"))).
Defined.
